(** * Adv-2-SONAR: the HC-SR04 range routines of UBMP4, embedded and verified

    The program of [Adv-2-SONAR.c] drives the TRIG pin of a SONAR module,
    busy-waits on its ECHO pin and counts 58 microsecond delays while ECHO is
    high.  Everything the routines do is pin I/O and delays, so the embedding
    is a state monad over the board: every read of ECHO takes the next sample
    of the echo line, every pin write and delay is appended to an event log.
    The busy-wait loops of the source have no bound; here they run on fuel,
    and a computation that is still spinning when the fuel is gone yields
    [None]. *)

From Stdlib Require Import ZArith List Bool Arith Lia.
Import ListNotations.

Open Scope Z_scope.

(** ** The board *)

(** What the program does to the outside world, in the order it does it. *)
Inductive event : Type :=
| EvEcho (level : bool)      (* ECHO was read, and this level was seen *)
| EvTrig (level : bool)      (* TRIG = level *)
| EvLATC (v : Z)             (* LATC = v *)
| EvDelayUs (n : Z)          (* __delay_us(n) *)
| EvDelayMs (n : Z)          (* __delay_ms(n) *)
| EvReset.                   (* RESET() *)

(** [ECHO_line k] is the level of the ECHO pin (PORTC bit RC1) at the [k]-th
    time the program reads it; [reads] counts the reads done so far.  [LATC]
    is the output latch of port C: bit 0 is TRIG, bits 4..7 are the LEDs.
    [SW1] is the level of the pushbutton pin (low when pressed).  [distance]
    and [timerResult] are the globals of the program.  [log] has the newest
    event first. *)
Record board : Type := mkBoard {
  ECHO_line : nat -> bool;
  reads : nat;
  LATC : Z;
  SW1 : bool;
  distance : Z;
  timerResult : Z;
  log : list event
}.

Definition emit (e : event) (s : board) : board :=
  mkBoard (ECHO_line s) (reads s) (LATC s) (SW1 s) (distance s)
          (timerResult s) (e :: log s).

(** The events in the order they happened. *)
Definition history (s : board) : list event := rev (log s).

(** Values of [unsigned char] and [unsigned int] (16 bits under XC8). *)
Definition u8 (z : Z) : Z := z mod 256.
Definition u16 (z : Z) : Z := z mod 65536.

(** ** The monad: board state, and [None] while a busy-wait is still spinning *)

Definition M (A : Type) : Type := board -> option A * board.

Definition ret {A : Type} (a : A) : M A := fun s => (Some a, s).

Definition bind {A B : Type} (c : M A) (k : A -> M B) : M B :=
  fun s => match c s with
           | (Some a, s') => k a s'
           | (None, s') => (None, s')
           end.

(** Out of fuel inside a loop: the routine has not come back yet. *)
Definition spinning {A : Type} : M A := fun s => (None, s).

Declare Scope sonar_scope.
Delimit Scope sonar_scope with sonar.
Notation "x <- c1 ;; c2" := (bind c1 (fun x => c2))
  (at level 61, c1 at next level, right associativity) : sonar_scope.
Notation "c1 ;; c2" := (bind c1 (fun _ => c2))
  (at level 61, right associativity) : sonar_scope.
Open Scope sonar_scope.

(** ** Pins and delays *)

(** Reading [ECHO]: the next sample of the echo line. *)
Definition read_ECHO : M bool := fun s =>
  let level := ECHO_line s (reads s) in
  (Some level,
   mkBoard (ECHO_line s) (S (reads s)) (LATC s) (SW1 s) (distance s)
           (timerResult s) (EvEcho level :: log s)).

(** [TRIG = 1] sets bit 0 of LATC, [TRIG = 0] clears it. *)
Definition set_TRIG (level : bool) : M unit := fun s =>
  let latc := if level then Z.lor (LATC s) 1 else Z.land (LATC s) 254 in
  (Some tt,
   mkBoard (ECHO_line s) (reads s) latc (SW1 s) (distance s)
           (timerResult s) (EvTrig level :: log s)).

Definition TRIG (s : board) : bool := Z.testbit (LATC s) 0.

Definition write_LATC (v : Z) : M unit := fun s =>
  (Some tt,
   mkBoard (ECHO_line s) (reads s) (u8 v) (SW1 s) (distance s)
           (timerResult s) (EvLATC v :: log s)).

Definition delay_us (n : Z) : M unit := fun s => (Some tt, emit (EvDelayUs n) s).
Definition delay_ms (n : Z) : M unit := fun s => (Some tt, emit (EvDelayMs n) s).

Definition read_SW1 : M bool := fun s => (Some (SW1 s), s).

Definition RESET : M unit := fun s => (Some tt, emit EvReset s).

Definition set_distance (d : Z) : M unit := fun s =>
  (Some tt,
   mkBoard (ECHO_line s) (reads s) (LATC s) (SW1 s) (u8 d)
           (timerResult s) (log s)).

Definition get_distance : M Z := fun s => (Some (distance s), s).

Definition set_timerResult (t : Z) : M unit := fun s =>
  (Some tt,
   mkBoard (ECHO_line s) (reads s) (LATC s) (SW1 s) (distance s)
           (u16 t) (log s)).

(** [while(ECHO == level);] *)
Fixpoint while_ECHO (level : bool) (fuel : nat) : M unit :=
  match fuel with
  | O => spinning
  | S fuel' =>
      e <- read_ECHO ;;
      if Bool.eqb e level then while_ECHO level fuel' else ret tt
  end.

(** ** The starter program *)

Module Starter.

(** The counting do-while of the starter [sonar_range]. *)
Fixpoint count_range (fuel : nat) (range : Z) : M Z :=
  match fuel with
  | O => spinning
  | S fuel' =>
      delay_us 58 ;;
      let range := if range <? 255 then u8 (range + 1) else range in
      e <- read_ECHO ;;
      if e then count_range fuel' range else ret range
  end.

Definition sonar_range (fuel : nat) : M Z :=
  set_TRIG true ;;
  delay_us 20 ;;
  set_TRIG false ;;
  let range := 0 in
  while_ECHO false fuel ;;
  count_range fuel range.

(** The LED cascade of [main]: the value written to LATC. *)
Definition led_pattern (distance : Z) : Z :=
  if distance >? 20 then 240        (* 0b11110000 *)
  else if distance >? 10 then 112   (* 0b01110000 *)
  else if distance >? 5 then 48     (* 0b00110000 *)
  else if distance >? 1 then 16     (* 0b00010000 *)
  else 0.

Definition display (d : Z) : M unit := write_LATC (led_pattern d).

(** One turn of the [while(1)] loop of [main]; the result tells whether
    [RESET()] was executed. *)
Definition main_loop_body (fuel : nat) : M bool :=
  r <- sonar_range fuel ;;
  set_distance r ;;
  d <- get_distance ;;
  display d ;;
  delay_ms 100 ;;
  sw <- read_SW1 ;;
  if negb sw then (RESET ;; ret true) else ret false.

(** The statements of [main] before the loop that touch the modelled state
    (the oscillator and port configuration are board services). *)
Definition main_setup : M unit := set_timerResult 1438.

End Starter.

(** ** The revised program *)

Module Revised.

Definition sonar_ready : M bool :=
  e <- read_ECHO ;;
  if e then ret false else ret true.

(** The counting do-while of the revised [sonar_range]; both of its exits are
    returns of the function. *)
Fixpoint count_range (fuel : nat) (maxRange range : Z) : M Z :=
  match fuel with
  | O => spinning
  | S fuel' =>
      delay_us 58 ;;
      let range := u8 (range + 1) in
      if range =? maxRange then ret 0
      else
        e <- read_ECHO ;;
        if e then count_range fuel' maxRange range else ret range
  end.

Definition sonar_range (fuel : nat) (maxRange : Z) : M Z :=
  while_ECHO true fuel ;;
  delay_ms 1 ;;
  set_TRIG true ;;
  delay_us 20 ;;
  set_TRIG false ;;
  let range := 0 in
  while_ECHO false fuel ;;
  count_range fuel maxRange range.

(** The call pattern the source gives for the revised routine:
    [if(sonar_ready()) distance = sonar_range(maxRange);] *)
Definition poll_range (fuel : nat) (maxRange : Z) : M unit :=
  ready <- sonar_ready ;;
  if ready then (r <- sonar_range fuel maxRange ;; set_distance r)
  else ret tt.

End Revised.

(** ** The display level *)

(** The number of LEDs lit by a value of LATC (bits 4..7): the five patterns
    of the cascade light 0, 1, 2, 3 or 4 LEDs. *)
Definition leds_lit (latc : Z) : Z :=
  Z.b2z (Z.testbit latc 4) + Z.b2z (Z.testbit latc 5)
  + Z.b2z (Z.testbit latc 6) + Z.b2z (Z.testbit latc 7).

Definition map_to_display (d : Z) : Z := leds_lit (Starter.led_pattern d).

(** ** Runs *)

(** A board just powered up, wired to a given echo line. *)
Definition power_on (echo : nat -> bool) : board :=
  mkBoard echo 0 0 true 0 0 [].

(** The routine [c] comes back with [r] from board state [s]. *)
Definition returns {A : Type} (c : nat -> M A) (s : board) (r : A) : Prop :=
  exists fuel, fst (c fuel s) = Some r.

(** The routine never comes back. *)
Definition hangs {A : Type} (c : nat -> M A) (s : board) : Prop :=
  forall fuel, fst (c fuel s) = None.

(** The events a computation adds to the history of [s]. *)
Definition emitted {A : Type} (c : M A) (s : board) : list event :=
  skipn (length (log s)) (history (snd (c s))).

(** ** Simulated echo lines *)

Definition TICK_US : Z := 58.

(** An echo pulse of [dur] microseconds as the counting loop samples it.  The
    sample 0 is the read that sees the pulse start; the sample [k] is taken
    [k] delays of 58 microseconds later, when the pulse is still there if it
    lasts longer than that. *)
Definition pulse_us (dur : Z) : nat -> bool :=
  fun k => match k with
           | O => true
           | S _ => TICK_US * Z.of_nat k <? dur
           end.

(** A pulse of [D] ticks of 58 microseconds. *)
Definition pulse (D : Z) : nat -> bool := pulse_us (TICK_US * D).

(** [n] samples at [level], then the line [echo]. *)
Definition hold (level : bool) (n : nat) (echo : nat -> bool) : nat -> bool :=
  fun k => if (k <? n)%nat then level else echo (k - n)%nat.

(** What the starter routine meets: ECHO low for [idle] reads while the module
    transmits, then the pulse. *)
Definition sim_echo (idle : nat) (D : Z) : nat -> bool :=
  hold false idle (pulse D).

(** What the revised routine meets: the previous pulse still high for [busy]
    reads, one low read that ends the wait, ECHO low for [idle] more reads,
    then the pulse. *)
Definition sim_echo_revised (busy idle : nat) (D : Z) : nat -> bool :=
  hold true busy (hold false (S idle) (pulse D)).

(** From state [s] on, the reads of ECHO see the line [echo]. *)
Definition sees (s : board) (echo : nat -> bool) : Prop :=
  forall k, ECHO_line s (reads s + k)%nat = echo k.

(** The board after the trigger pulse [TRIG = 1; __delay_us(20); TRIG = 0]. *)
Definition after_trigger (s : board) : board :=
  snd (set_TRIG false (snd (delay_us 20 (snd (set_TRIG true s))))).

(** The event that starts a measurement: TRIG driven high. *)
Definition is_trigger (e : event) : bool :=
  match e with
  | EvTrig true => true
  | _ => false
  end.

(** ** Event traces *)

(** The events of [k] turns of a counting loop that found ECHO still high:
    the delay of 58 microseconds, then the read. *)
Fixpoint turns (k : nat) : list event :=
  match k with
  | O => []
  | S k' => EvDelayUs 58 :: EvEcho true :: turns k'
  end.

(** Board [s'] has logged the events [l] (oldest first) since board [s]. *)
Definition adds (s s' : board) (l : list event) : Prop :=
  log s' = rev l ++ log s.

(** ** The timer formulas of [main] *)

(** The two integer formulas [main] offers (commented out, to be tried in the
    simulator) for a pulse length measured by a microsecond timer:
    [distance = timerResult / 29 / 2;] and [distance = timerResult / 58;].
    [timerResult] is an [unsigned int], the result goes to the
    [unsigned char] [distance]. *)
Definition timer_distance_29_2 (timerResult : Z) : Z :=
  u8 (u16 timerResult / 29 / 2).

Definition timer_distance_58 (timerResult : Z) : Z :=
  u8 (u16 timerResult / 58).

(** ** The program as a whole *)

(** The [while(1)] loop of [main].  It has no exit of its own: the program
    goes on until [RESET()] hands the processor to the bootloader.  [turns]
    is the fuel of this loop. *)
Fixpoint main_loop (turns fuel : nat) : M unit :=
  match turns with
  | O => spinning
  | S turns' =>
      reset <- Starter.main_loop_body fuel ;;
      if reset then ret tt else main_loop turns' fuel
  end.

(** ** Samples of the simulated lines *)

Lemma hold_before (level : bool) (n : nat) (echo : nat -> bool) (k : nat) :
  (k < n)%nat -> hold level n echo k = level.
Proof.
  intros Hk. unfold hold.
  destruct (Nat.ltb_spec k n) as [_ | Hge]; [reflexivity | lia].
Qed.

Lemma hold_after (level : bool) (n : nat) (echo : nat -> bool) (k : nat) :
  hold level n echo (n + k) = echo k.
Proof.
  unfold hold.
  destruct (Nat.ltb_spec (n + k) n) as [Hlt | _]; [lia | ].
  f_equal. lia.
Qed.

Lemma pulse_tick (D : Z) (k : nat) :
  pulse D (S k) = (Z.of_nat (S k) <? D).
Proof.
  unfold pulse, pulse_us, TICK_US.
  destruct (Z.ltb_spec (58 * Z.of_nat (S k)) (58 * D));
    destruct (Z.ltb_spec (Z.of_nat (S k)) D); try reflexivity; lia.
Qed.

Lemma sees_power_on (echo : nat -> bool) : sees (power_on echo) echo.
Proof. intros k. reflexivity. Qed.

(** The trigger pulse leaves TRIG low and does not read ECHO. *)
Lemma after_trigger_TRIG (s : board) :
  TRIG (after_trigger s) = false
  /\ ECHO_line (after_trigger s) = ECHO_line s
  /\ reads (after_trigger s) = reads s.
Proof.
  split; [ | split; reflexivity].
  unfold TRIG, after_trigger. cbn [snd set_TRIG delay_us emit LATC].
  rewrite Z.land_spec. apply andb_false_r.
Qed.

(** ** The busy-wait on ECHO *)

(** The wait leaves as soon as a sample differs from [level]: after [w] samples
    at [level] it has consumed [w + 1] reads. *)
Lemma while_ECHO_exits (level : bool) (w : nat) :
  forall (fuel : nat) (s : board),
    (w < fuel)%nat ->
    (forall k, (k < w)%nat -> ECHO_line s (reads s + k)%nat = level) ->
    ECHO_line s (reads s + w)%nat = negb level ->
    exists s',
      while_ECHO level fuel s = (Some tt, s')
      /\ ECHO_line s' = ECHO_line s
      /\ reads s' = (reads s + S w)%nat.
Proof.
  induction w as [| w IH]; intros fuel s Hfuel Hhold Hexit.
  - destruct fuel as [| fuel]; [lia | ].
    rewrite Nat.add_0_r in Hexit.
    cbn. rewrite Hexit. destruct level; cbn;
      (eexists; split; [reflexivity | split; [reflexivity | cbn; lia]]).
  - destruct fuel as [| fuel]; [lia | ].
    assert (H0 : ECHO_line s (reads s) = level).
    { rewrite <- (Hhold 0%nat) by lia. f_equal. lia. }
    cbn. rewrite H0, eqb_reflx.
    match goal with |- context [while_ECHO level fuel ?s1] =>
      destruct (IH fuel s1) as (s' & Hrun & Hline & Hreads) end.
    + lia.
    + intros k Hk. cbn. rewrite <- (Hhold (S k)) by lia. f_equal. lia.
    + cbn. rewrite <- Hexit. f_equal. lia.
    + exists s'. cbn in Hline, Hreads. repeat split; try assumption. lia.
Qed.

(** While every sample is at [level] the wait never leaves. *)
Lemma while_ECHO_spins (level : bool) :
  forall (fuel : nat) (s : board),
    (forall k, ECHO_line s (reads s + k)%nat = level) ->
    fst (while_ECHO level fuel s) = None.
Proof.
  induction fuel as [| fuel IH]; intros s Hall; [reflexivity | ].
  assert (H0 : ECHO_line s (reads s) = level).
  { rewrite <- (Hall 0%nat). f_equal. lia. }
  cbn. rewrite H0, eqb_reflx. apply IH.
  intros k. cbn. rewrite <- (Hall (S k)). f_equal. lia.
Qed.

(** If some sample differs from [level], the wait leaves, having read no
    further than that sample. *)
Lemma while_ECHO_terminates (level : bool) (k : nat) :
  forall (s : board),
    ECHO_line s (reads s + k)%nat = negb level ->
    exists fuel0 s',
      (forall fuel, (fuel0 <= fuel)%nat ->
                    while_ECHO level fuel s = (Some tt, s'))
      /\ ECHO_line s' = ECHO_line s
      /\ (reads s < reads s' <= reads s + S k)%nat
      /\ ECHO_line s (reads s' - 1)%nat = negb level.
Proof.
  induction k as [| k IH]; intros s Hk.
  - rewrite Nat.add_0_r in Hk.
    eexists 1%nat, _. split; [ | split; [ | split]].
    + intros [| fuel] Hfuel; [lia | ].
      cbn. rewrite Hk. destruct level; reflexivity.
    + reflexivity.
    + cbn. lia.
    + cbn. rewrite Nat.sub_0_r. exact Hk.
  - destruct (bool_dec (ECHO_line s (reads s)) level) as [Heq | Hne].
    + pose (s1 := snd (read_ECHO s)).
      destruct (IH s1) as (fuel0 & s' & Hrun & Hline & Hreads & Hlast).
      { cbn. rewrite <- Hk. f_equal. lia. }
      subst s1. cbn in Hrun, Hline, Hreads, Hlast. rewrite Heq in Hrun.
      exists (S fuel0), s'.
      split; [ | split; [ | split]]; try assumption; try lia.
      intros [| fuel] Hfuel; [lia | ].
      cbn. rewrite Heq, eqb_reflx. apply Hrun. lia.
    + assert (Hneg : ECHO_line s (reads s) = negb level).
      { destruct (ECHO_line s (reads s)), level; cbn; congruence. }
      eexists 1%nat, _. split; [ | split; [ | split]].
      * intros [| fuel] Hfuel; [lia | ].
        cbn. rewrite Hneg. destruct level; reflexivity.
      * reflexivity.
      * cbn. lia.
      * cbn. rewrite Nat.sub_0_r. exact Hneg.
Qed.

(** ** The counting loop of the starter routine *)

Lemma u8_small (z : Z) : 0 <= z <= 255 -> u8 z = z.
Proof. intros Hz. unfold u8. apply Z.mod_small. lia. Qed.

(** One turn of the counter: it goes up by one and stays at 255. *)
Lemma starter_increment (range : Z) :
  0 <= range <= 255 ->
  (if range <? 255 then u8 (range + 1) else range) = Z.min (range + 1) 255.
Proof.
  intros Hr. destruct (Z.ltb_spec range 255).
  - rewrite u8_small by lia. lia.
  - lia.
Qed.

(** After [n] high samples and a low one the loop comes back with the counter
    [n + 1] turns further, capped at 255. *)
Lemma starter_count_exits (n : nat) :
  forall (fuel : nat) (range : Z) (s : board),
    (n < fuel)%nat ->
    0 <= range <= 255 ->
    (forall k, (k < n)%nat -> ECHO_line s (reads s + k)%nat = true) ->
    ECHO_line s (reads s + n)%nat = false ->
    fst (Starter.count_range fuel range s)
    = Some (Z.min (range + Z.of_nat n + 1) 255).
Proof.
  induction n as [| n IH]; intros fuel range s Hfuel Hr Hhigh Hlow;
    (destruct fuel as [| fuel]; [lia | ]).
  - rewrite Nat.add_0_r in Hlow.
    cbn -[Z.ltb Z.add Z.min]. rewrite Hlow. cbn -[Z.ltb Z.add Z.min].
    rewrite starter_increment by assumption. f_equal. lia.
  - assert (H0 : ECHO_line s (reads s) = true).
    { rewrite <- (Hhigh 0%nat) by lia. f_equal. lia. }
    cbn -[Z.ltb Z.add Z.min Z.of_nat]. rewrite H0.
    rewrite starter_increment by assumption.
    rewrite IH.
    + f_equal. lia.
    + lia.
    + lia.
    + intros k Hk. cbn. rewrite <- (Hhigh (S k)) by lia. f_equal. lia.
    + cbn. rewrite <- Hlow. f_equal. lia.
Qed.

(** The counter never leaves 1..255 once the loop has turned. *)
Lemma starter_count_bounds :
  forall (fuel : nat) (range : Z) (s : board) (r : Z),
    0 <= range <= 255 ->
    fst (Starter.count_range fuel range s) = Some r ->
    1 <= r <= 255.
Proof.
  induction fuel as [| fuel IH]; intros range s r Hr Hrun; [discriminate | ].
  cbn -[Z.ltb Z.add] in Hrun.
  rewrite starter_increment in Hrun by assumption.
  destruct (ECHO_line s (reads s)).
  - apply IH in Hrun; [assumption | lia].
  - cbn in Hrun. injection Hrun as <-. lia.
Qed.

(** If a low sample lies ahead, the loop comes back. *)
Lemma starter_count_terminates (k : nat) :
  forall (range : Z) (s : board),
    ECHO_line s (reads s + k)%nat = false ->
    exists fuel0 r,
      forall fuel, (fuel0 <= fuel)%nat ->
                   fst (Starter.count_range fuel range s) = Some r.
Proof.
  induction k as [| k IH]; intros range s Hk.
  - rewrite Nat.add_0_r in Hk.
    eexists 1%nat, _. intros [| fuel] Hfuel; [lia | ].
    cbn -[Z.ltb Z.add]. rewrite Hk. reflexivity.
  - destruct (ECHO_line s (reads s)) eqn:H0.
    + pose (s1 := snd (read_ECHO (snd (delay_us 58 s)))).
      destruct (IH (if range <? 255 then u8 (range + 1) else range) s1)
        as (fuel0 & r & Hrun).
      { cbn. rewrite <- Hk. f_equal. lia. }
      subst s1. cbn in Hrun. rewrite H0 in Hrun.
      exists (S fuel0), r. intros [| fuel] Hfuel; [lia | ].
      cbn -[Z.ltb Z.add]. rewrite H0. apply Hrun. lia.
    + eexists 1%nat, _. intros [| fuel] Hfuel; [lia | ].
      cbn -[Z.ltb Z.add]. rewrite H0. reflexivity.
Qed.

(** ** More fuel changes nothing once a routine has come back *)

Lemma while_ECHO_more_fuel (level : bool) :
  forall (fuel fuel' : nat) (s s' : board),
    (fuel <= fuel')%nat ->
    while_ECHO level fuel s = (Some tt, s') ->
    while_ECHO level fuel' s = (Some tt, s').
Proof.
  induction fuel as [| fuel IH]; intros fuel' s s' Hle Hrun; [discriminate | ].
  destruct fuel' as [| fuel']; [lia | ].
  cbn in Hrun |- *.
  destruct (eqb (ECHO_line s (reads s)) level).
  - apply IH with (fuel' := fuel') in Hrun; [exact Hrun | lia].
  - exact Hrun.
Qed.

Lemma starter_count_more_fuel :
  forall (fuel fuel' : nat) (range : Z) (s : board) (r : Z),
    (fuel <= fuel')%nat ->
    fst (Starter.count_range fuel range s) = Some r ->
    fst (Starter.count_range fuel' range s) = Some r.
Proof.
  induction fuel as [| fuel IH]; intros fuel' range s r Hle Hrun;
    [discriminate | ].
  destruct fuel' as [| fuel']; [lia | ].
  cbn -[Z.ltb Z.add] in Hrun |- *.
  destruct (ECHO_line s (reads s)).
  - apply IH with (fuel' := fuel') in Hrun; [exact Hrun | lia].
  - exact Hrun.
Qed.

Lemma revised_count_more_fuel (maxRange : Z) :
  forall (fuel fuel' : nat) (range : Z) (s : board) (r : Z),
    (fuel <= fuel')%nat ->
    fst (Revised.count_range fuel maxRange range s) = Some r ->
    fst (Revised.count_range fuel' maxRange range s) = Some r.
Proof.
  induction fuel as [| fuel IH]; intros fuel' range s r Hle Hrun;
    [discriminate | ].
  destruct fuel' as [| fuel']; [lia | ].
  cbn -[Z.eqb Z.add] in Hrun |- *.
  destruct (u8 (range + 1) =? maxRange); [exact Hrun | ].
  cbn -[Z.eqb Z.add] in Hrun |- *.
  destruct (ECHO_line s (reads s)).
  - apply IH with (fuel' := fuel') in Hrun; [exact Hrun | lia].
  - exact Hrun.
Qed.

(** ** The starter routine as a whole *)

Lemma starter_range_unfold (fuel : nat) (s : board) :
  Starter.sonar_range fuel s
  = (while_ECHO false fuel ;; Starter.count_range fuel 0) (after_trigger s).
Proof. reflexivity. Qed.

Lemma starter_range_more_fuel :
  forall (fuel fuel' : nat) (s : board) (r : Z),
    (fuel <= fuel')%nat ->
    fst (Starter.sonar_range fuel s) = Some r ->
    fst (Starter.sonar_range fuel' s) = Some r.
Proof.
  intros fuel fuel' s r Hle. rewrite !starter_range_unfold. unfold bind.
  destruct (while_ECHO false fuel (after_trigger s)) as [[[] | ] s1] eqn:Hwait;
    [ | discriminate].
  rewrite (while_ECHO_more_fuel false fuel fuel' _ _ Hle Hwait).
  now apply starter_count_more_fuel.
Qed.

Lemma starter_returns_unique (s : board) (r r' : Z) :
  returns Starter.sonar_range s r -> returns Starter.sonar_range s r' -> r = r'.
Proof.
  intros [f Hf] [f' Hf'].
  apply (starter_range_more_fuel f (Nat.max f f')) in Hf; [ | lia].
  apply (starter_range_more_fuel f' (Nat.max f f')) in Hf'; [ | lia].
  congruence.
Qed.

(** Whatever the starter routine returns lies in 1..255. *)
Lemma starter_range_bounds (fuel : nat) (s : board) (r : Z) :
  fst (Starter.sonar_range fuel s) = Some r -> 1 <= r <= 255.
Proof.
  rewrite starter_range_unfold. unfold bind.
  destruct (while_ECHO false fuel (after_trigger s)) as [[[] | ] s1];
    [ | discriminate].
  apply starter_count_bounds. lia.
Qed.

(** The starter routine on a simulated pulse of [D] ticks after [idle] low
    reads, for every [D], the ones below one tick included. *)
Lemma starter_range_sim (s : board) (idle : nat) (D : Z) :
  sees s (sim_echo idle D) ->
  forall fuel,
    (Nat.max idle (Z.to_nat (Z.max D 1 - 1)) < fuel)%nat ->
    fst (Starter.sonar_range fuel s) = Some (Z.min (Z.max D 1) 255).
Proof.
  intros Hsees fuel Hfuel. rewrite starter_range_unfold. unfold bind.
  destruct (while_ECHO_exits false idle fuel (after_trigger s))
    as (s1 & Hwait & Hline & Hreads).
  - lia.
  - intros k Hk. cbn. rewrite Hsees. now apply hold_before.
  - cbn. rewrite Hsees. unfold sim_echo.
    rewrite <- (Nat.add_0_r idle) at 2. rewrite hold_after. reflexivity.
  - rewrite Hwait.
    rewrite (starter_count_exits (Z.to_nat (Z.max D 1 - 1))).
    + f_equal. lia.
    + lia.
    + lia.
    + intros k Hk. rewrite Hline, Hreads. cbn.
      replace (reads s + S idle + k)%nat with (reads s + (idle + S k))%nat
        by lia.
      rewrite Hsees. unfold sim_echo. rewrite hold_after, pulse_tick.
      apply Z.ltb_lt. lia.
    + rewrite Hline, Hreads. cbn.
      replace (reads s + S idle + Z.to_nat (Z.max D 1 - 1))%nat
        with (reads s + (idle + S (Z.to_nat (Z.max D 1 - 1))))%nat by lia.
      rewrite Hsees. unfold sim_echo. rewrite hold_after, pulse_tick.
      apply Z.ltb_ge. lia.
Qed.

(** ** The counting loop of the revised routine *)

(** The count runs [n + 1] turns without meeting [maxRange] and the echo ends:
    the loop returns the count.  A [maxRange] not above the start of the count
    is never met before the counter has gone round. *)
Lemma revised_count_within (maxRange : Z) (n : nat) :
  forall (fuel : nat) (range : Z) (s : board),
    (n < fuel)%nat ->
    0 <= range ->
    range + Z.of_nat n + 1 <= 255 ->
    maxRange <= range \/ range + Z.of_nat n + 1 < maxRange ->
    (forall k, (k < n)%nat -> ECHO_line s (reads s + k)%nat = true) ->
    ECHO_line s (reads s + n)%nat = false ->
    fst (Revised.count_range fuel maxRange range s)
    = Some (range + Z.of_nat n + 1).
Proof.
  induction n as [| n IH]; intros fuel range s Hfuel Hr Hcap Hmax Hhigh Hlow;
    (destruct fuel as [| fuel]; [lia | ]);
    cbn -[Z.eqb Z.add Z.of_nat]; rewrite u8_small by lia;
    (destruct (Z.eqb_spec (range + 1) maxRange) as [Heq | _]; [lia | ]);
    cbn -[Z.eqb Z.add Z.of_nat].
  - rewrite Nat.add_0_r in Hlow. rewrite Hlow. cbn. f_equal. lia.
  - assert (H0 : ECHO_line s (reads s) = true).
    { rewrite <- (Hhigh 0%nat) by lia. f_equal. lia. }
    rewrite H0. rewrite IH.
    + f_equal. lia.
    + lia.
    + lia.
    + lia.
    + lia.
    + intros k Hk. cbn. rewrite <- (Hhigh (S k)) by lia. f_equal. lia.
    + cbn. rewrite <- Hlow. f_equal. lia.
Qed.

(** The echo outlasts the count: the loop returns 0 in the turn in which the
    8-bit counter equals [maxRange] - for [maxRange] 0, in the turn in which
    it goes round from 255 to 0. *)
Lemma revised_count_beyond (maxRange : Z) (n : nat) :
  forall (fuel : nat) (range : Z) (s : board),
    (n < fuel)%nat ->
    0 <= range ->
    (range + Z.of_nat n + 1 = maxRange /\ maxRange <= 255)
    \/ (maxRange = 0 /\ range + Z.of_nat n + 1 = 256) ->
    (forall k, (k < n)%nat -> ECHO_line s (reads s + k)%nat = true) ->
    fst (Revised.count_range fuel maxRange range s) = Some 0.
Proof.
  induction n as [| n IH]; intros fuel range s Hfuel Hr Hmax Hhigh;
    (destruct fuel as [| fuel]; [lia | ]);
    cbn -[Z.eqb Z.add Z.of_nat].
  - assert (Hhit : u8 (range + 1) = maxRange).
    { destruct Hmax as [[H1 H2] | [H1 H2]].
      - rewrite u8_small by lia. lia.
      - replace (range + 1) with 256 by lia. subst maxRange. reflexivity. }
    rewrite Hhit, Z.eqb_refl. reflexivity.
  - rewrite u8_small by lia.
    destruct (Z.eqb_spec (range + 1) maxRange) as [Heq | _]; [lia | ].
    cbn -[Z.eqb Z.add Z.of_nat].
    assert (H0 : ECHO_line s (reads s) = true).
    { rewrite <- (Hhigh 0%nat) by lia. f_equal. lia. }
    rewrite H0. apply IH.
    + lia.
    + lia.
    + lia.
    + intros k Hk. cbn. rewrite <- (Hhigh (S k)) by lia. f_equal. lia.
Qed.

(** With a bound above 0 the loop returns less than the bound. *)
Lemma revised_count_bounds (maxRange : Z) :
  forall (fuel : nat) (range : Z) (s : board) (r : Z),
    0 < maxRange ->
    0 <= range <= 255 ->
    range < maxRange ->
    fst (Revised.count_range fuel maxRange range s) = Some r ->
    0 <= r < maxRange.
Proof.
  induction fuel as [| fuel IH]; intros range s r HM Hr Hlt Hrun;
    [discriminate | ].
  cbn -[Z.eqb Z.add] in Hrun.
  assert (Hu : 0 <= u8 (range + 1) <= 255).
  { unfold u8. pose proof (Z.mod_pos_bound (range + 1) 256). lia. }
  assert (Hle : u8 (range + 1) <= range + 1).
  { unfold u8. apply Z.mod_le; lia. }
  destruct (Z.eqb_spec (u8 (range + 1)) maxRange) as [Heq | Hne].
  - cbn in Hrun. injection Hrun as <-. lia.
  - cbn -[Z.eqb Z.add] in Hrun.
    destruct (ECHO_line s (reads s)).
    + apply IH in Hrun; [assumption | lia | lia | lia].
    + cbn in Hrun. injection Hrun as <-. lia.
Qed.

(** ** The revised routine as a whole *)

Lemma revised_range_unfold (fuel : nat) (maxRange : Z) (s : board) :
  Revised.sonar_range fuel maxRange s
  = (while_ECHO true fuel ;;
     (fun s1 => (while_ECHO false fuel ;; Revised.count_range fuel maxRange 0)
                  (after_trigger (snd (delay_ms 1 s1))))) s.
Proof. reflexivity. Qed.

Lemma revised_range_more_fuel (maxRange : Z) :
  forall (fuel fuel' : nat) (s : board) (r : Z),
    (fuel <= fuel')%nat ->
    fst (Revised.sonar_range fuel maxRange s) = Some r ->
    fst (Revised.sonar_range fuel' maxRange s) = Some r.
Proof.
  intros fuel fuel' s r Hle. rewrite !revised_range_unfold. unfold bind.
  destruct (while_ECHO true fuel s) as [[[] | ] s1] eqn:Hpre; [ | discriminate].
  rewrite (while_ECHO_more_fuel true fuel fuel' _ _ Hle Hpre).
  destruct (while_ECHO false fuel (after_trigger (snd (delay_ms 1 s1))))
    as [[[] | ] s2] eqn:Hwait; [ | discriminate].
  rewrite (while_ECHO_more_fuel false fuel fuel' _ _ Hle Hwait).
  now apply revised_count_more_fuel.
Qed.

Lemma revised_returns_unique (maxRange : Z) (s : board) (r r' : Z) :
  returns (fun fuel => Revised.sonar_range fuel maxRange) s r ->
  returns (fun fuel => Revised.sonar_range fuel maxRange) s r' ->
  r = r'.
Proof.
  intros [f Hf] [f' Hf'].
  apply (revised_range_more_fuel maxRange f (Nat.max f f')) in Hf; [ | lia].
  apply (revised_range_more_fuel maxRange f' (Nat.max f f')) in Hf'; [ | lia].
  congruence.
Qed.

Lemma revised_range_bounds (fuel : nat) (maxRange : Z) (s : board) (r : Z) :
  0 < maxRange ->
  fst (Revised.sonar_range fuel maxRange s) = Some r ->
  0 <= r < maxRange.
Proof.
  intros HM. rewrite revised_range_unfold. unfold bind.
  destruct (while_ECHO true fuel s) as [[[] | ] s1]; [ | discriminate].
  destruct (while_ECHO false fuel (after_trigger (snd (delay_ms 1 s1))))
    as [[[] | ] s2]; [ | discriminate].
  apply revised_count_bounds; lia.
Qed.

(** On a simulated line the revised routine gets to its counting loop with the
    pulse's tick samples ahead. *)
Lemma revised_range_sim_reaches
      (s : board) (busy idle : nat) (D maxRange : Z) (fuel : nat) :
  sees s (sim_echo_revised busy idle D) ->
  (Nat.max busy idle < fuel)%nat ->
  exists s3,
    Revised.sonar_range fuel maxRange s
    = Revised.count_range fuel maxRange 0 s3
    /\ forall k, ECHO_line s3 (reads s3 + k)%nat = pulse D (S k).
Proof.
  intros Hsees Hfuel. rewrite revised_range_unfold. unfold bind.
  destruct (while_ECHO_exits true busy fuel s) as (s1 & Hpre & Hline1 & Hreads1).
  - lia.
  - intros k Hk. rewrite Hsees. now apply hold_before.
  - rewrite Hsees. unfold sim_echo_revised.
    rewrite <- (Nat.add_0_r busy) at 2. rewrite hold_after. reflexivity.
  - rewrite Hpre.
    destruct (while_ECHO_exits false idle fuel
                (after_trigger (snd (delay_ms 1 s1))))
      as (s2 & Hwait & Hline2 & Hreads2).
    + lia.
    + intros k Hk. cbn. rewrite Hline1, Hreads1.
      replace (reads s + S busy + k)%nat with (reads s + (busy + S k))%nat
        by lia.
      rewrite Hsees. unfold sim_echo_revised. rewrite hold_after.
      apply hold_before. lia.
    + cbn. rewrite Hline1, Hreads1.
      replace (reads s + S busy + idle)%nat
        with (reads s + (busy + (S idle + 0)))%nat by lia.
      rewrite Hsees. unfold sim_echo_revised. rewrite !hold_after.
      reflexivity.
    + rewrite Hwait. exists s2. split; [reflexivity | ].
      intros k. rewrite Hline2, Hreads2. cbn. rewrite Hline1, Hreads1.
      replace (reads s + S busy + S idle + k)%nat
        with (reads s + (busy + (S idle + S k)))%nat by lia.
      rewrite Hsees. unfold sim_echo_revised. now rewrite !hold_after.
Qed.

(** The echo ends before the count meets the bound: the count comes back. *)
Lemma revised_range_sim_within
      (s : board) (busy idle : nat) (D maxRange : Z) (fuel : nat) :
  sees s (sim_echo_revised busy idle D) ->
  Z.max D 1 <= 255 ->
  maxRange <= 0 \/ Z.max D 1 < maxRange ->
  (Nat.max (Nat.max busy idle) (Z.to_nat (Z.max D 1 - 1)) < fuel)%nat ->
  fst (Revised.sonar_range fuel maxRange s) = Some (Z.max D 1).
Proof.
  intros Hsees Hcap Hmax Hfuel.
  destruct (revised_range_sim_reaches s busy idle D maxRange fuel Hsees)
    as (s3 & -> & Hahead); [lia | ].
  rewrite (revised_count_within maxRange (Z.to_nat (Z.max D 1 - 1))).
  - f_equal. lia.
  - lia.
  - lia.
  - lia.
  - lia.
  - intros k Hk. rewrite Hahead, pulse_tick. apply Z.ltb_lt. lia.
  - rewrite Hahead, pulse_tick. apply Z.ltb_ge. lia.
Qed.

(** The echo lasts until the count meets the bound: 0 comes back. *)
Lemma revised_range_sim_beyond
      (s : board) (busy idle : nat) (D maxRange : Z) (fuel : nat) :
  sees s (sim_echo_revised busy idle D) ->
  (1 <= maxRange <= 255 /\ maxRange <= Z.max D 1)
  \/ (maxRange = 0 /\ 256 <= D) ->
  (Nat.max (Nat.max busy idle) 255 < fuel)%nat ->
  fst (Revised.sonar_range fuel maxRange s) = Some 0.
Proof.
  intros Hsees Hmax Hfuel.
  destruct (revised_range_sim_reaches s busy idle D maxRange fuel Hsees)
    as (s3 & -> & Hahead); [lia | ].
  apply (revised_count_beyond maxRange
           (Z.to_nat ((if maxRange =? 0 then 256 else maxRange) - 1))).
  - destruct (Z.eqb_spec maxRange 0); lia.
  - lia.
  - destruct (Z.eqb_spec maxRange 0); lia.
  - intros k Hk. rewrite Hahead, pulse_tick. apply Z.ltb_lt.
    destruct (Z.eqb_spec maxRange 0); lia.
Qed.

(** ** What the routines write to the event log *)

Lemma emitted_of_log {A : Type} (c : M A) (s : board) (new : list event) :
  log (snd (c s)) = new ++ log s -> emitted c s = rev new.
Proof.
  intros Hlog. unfold emitted, history.
  rewrite Hlog, rev_app_distr, skipn_app, length_rev, Nat.sub_diag.
  rewrite skipn_all2 by (rewrite length_rev; lia).
  reflexivity.
Qed.

Lemma repeat_shift {A : Type} (x : A) (n : nat) (l : list A) :
  repeat x n ++ x :: l = repeat x (S n) ++ l.
Proof.
  induction n as [| n IH]; cbn; [reflexivity | ].
  f_equal. exact IH.
Qed.

(** The wait logs reads at [level], and the read that ends it if it ends. *)
Lemma while_ECHO_log (level : bool) :
  forall (fuel : nat) (s : board),
  exists n,
    log (snd (while_ECHO level fuel s))
    = match fst (while_ECHO level fuel s) with
      | Some _ => [EvEcho (negb level)]
      | None => []
      end ++ repeat (EvEcho level) n ++ log s.
Proof.
  induction fuel as [| fuel IH]; intros s.
  - exists 0%nat. reflexivity.
  - cbn. destruct (bool_dec (ECHO_line s (reads s)) level) as [Heq | Hne].
    + rewrite Heq, eqb_reflx.
      match goal with |- context [while_ECHO level fuel ?s1] =>
        destruct (IH s1) as [n Hn] end.
      exists (S n). rewrite Hn. cbn [log].
      rewrite repeat_shift. reflexivity.
    + assert (Hneg : ECHO_line s (reads s) = negb level).
      { destruct (ECHO_line s (reads s)), level; cbn; congruence. }
      exists 0%nat. rewrite Hneg. destruct level; reflexivity.
Qed.

(** The counting loop only delays and reads ECHO. *)
Lemma revised_count_log (maxRange : Z) :
  forall (fuel : nat) (range : Z) (s : board),
  exists new,
    log (snd (Revised.count_range fuel maxRange range s)) = new ++ log s
    /\ Forall (fun e => is_trigger e = false) new.
Proof.
  induction fuel as [| fuel IH]; intros range s.
  - exists []. split; [reflexivity | constructor].
  - cbn -[Z.eqb Z.add].
    destruct (u8 (range + 1) =? maxRange).
    + exists [EvDelayUs 58]. split; [reflexivity | ].
      repeat constructor.
    + cbn -[Z.eqb Z.add]. destruct (ECHO_line s (reads s)) eqn:H0.
      * match goal with |- context [Revised.count_range fuel _ ?r ?s1] =>
          destruct (IH r s1) as (new & Hnew & Hquiet) end.
        exists (new ++ [EvEcho true; EvDelayUs 58]). split.
        -- rewrite Hnew, <- app_assoc. reflexivity.
        -- apply Forall_app. split; [assumption | repeat constructor].
      * exists [EvEcho false; EvDelayUs 58]. split; [reflexivity | ].
        repeat constructor.
Qed.

(** A list with one trigger splits around it in one way only. *)
Lemma split_at_trigger (l1 l2 pre post : list event) :
  Forall (fun e => is_trigger e = false) l1 ->
  Forall (fun e => is_trigger e = false) l2 ->
  l1 ++ EvTrig true :: l2 = pre ++ EvTrig true :: post ->
  pre = l1.
Proof.
  intros H1 H2. revert pre.
  induction H1 as [| e l1 He H1 IH]; intros pre Heq.
  - destruct pre as [| p pre]; [reflexivity | ].
    cbn in Heq. injection Heq as <- Heq.
    assert (Hin : In (EvTrig true) l2).
    { rewrite Heq. apply in_or_app. right. left. reflexivity. }
    rewrite Forall_forall in H2. apply H2 in Hin. discriminate.
  - destruct pre as [| p pre].
    + cbn in Heq. injection Heq as -> _. discriminate.
    + cbn in Heq. injection Heq as -> Heq. f_equal. now apply IH.
Qed.

(** The events of a call of the revised routine: reads of ECHO high, and then,
    if the wait ends, the low read, the settle delay and the one trigger. *)
Lemma revised_range_emitted (fuel : nat) (maxRange : Z) (s : board) :
  exists n,
    emitted (Revised.sonar_range fuel maxRange) s = repeat (EvEcho true) n
    \/ exists rest,
        emitted (Revised.sonar_range fuel maxRange) s
        = (repeat (EvEcho true) n ++ [EvEcho false; EvDelayMs 1])
            ++ EvTrig true :: rest
        /\ Forall (fun e => is_trigger e = false) rest.
Proof.
  destruct (while_ECHO_log true fuel s) as [n Hpre].
  exists n.
  destruct (while_ECHO true fuel s) as [[[] | ] s1] eqn:Hrun; cbn in Hpre.
  - right.
    pose (s2 := after_trigger (snd (delay_ms 1 s1))).
    destruct (while_ECHO_log false fuel s2) as [m Hwait].
    destruct (while_ECHO false fuel s2) as [[[] | ] s3] eqn:Hrun2;
      cbn in Hwait.
    + destruct (revised_count_log maxRange fuel 0 s3) as (new & Hnew & Hquiet).
      exists ([EvDelayUs 20; EvTrig false] ++ repeat (EvEcho false) m
              ++ [EvEcho true] ++ rev new).
      split.
      * rewrite (emitted_of_log _ _
                   (new ++ [EvEcho true] ++ repeat (EvEcho false) m
                    ++ [EvTrig false; EvDelayUs 20; EvTrig true;
                        EvDelayMs 1; EvEcho false]
                    ++ repeat (EvEcho true) n)).
        -- rewrite !rev_app_distr, !rev_repeat. cbn.
           rewrite <- !app_assoc. reflexivity.
        -- rewrite revised_range_unfold. unfold bind. rewrite Hrun.
           fold s2. rewrite Hrun2, Hnew, Hwait, Hpre.
           rewrite <- !app_assoc. reflexivity.
      * repeat (apply Forall_app; split); try (repeat constructor).
        -- apply Forall_forall. intros e He.
           apply repeat_spec in He. subst e. reflexivity.
        -- apply Forall_rev. assumption.
    + exists ([EvDelayUs 20; EvTrig false] ++ repeat (EvEcho false) m).
      split.
      * rewrite (emitted_of_log _ _
                   (repeat (EvEcho false) m
                    ++ [EvTrig false; EvDelayUs 20; EvTrig true;
                        EvDelayMs 1; EvEcho false]
                    ++ repeat (EvEcho true) n)).
        -- rewrite !rev_app_distr, !rev_repeat. cbn.
           rewrite <- !app_assoc. reflexivity.
        -- rewrite revised_range_unfold. unfold bind. rewrite Hrun.
           fold s2. rewrite Hrun2. cbn [snd]. rewrite Hwait, Hpre.
           rewrite <- !app_assoc. reflexivity.
      * repeat (apply Forall_app; split); try (repeat constructor).
        apply Forall_forall. intros e He.
        apply repeat_spec in He. subst e. reflexivity.
  - left.
    rewrite (emitted_of_log _ _ (repeat (EvEcho true) n)).
    + apply rev_repeat.
    + rewrite revised_range_unfold. unfold bind. rewrite Hrun. exact Hpre.
Qed.

(** ** The pushbutton pin is not touched by the range routine *)

Lemma while_ECHO_SW1 (level : bool) :
  forall (fuel : nat) (s : board),
    SW1 (snd (while_ECHO level fuel s)) = SW1 s.
Proof.
  induction fuel as [| fuel IH]; intros s; [reflexivity | ].
  cbn. destruct (eqb (ECHO_line s (reads s)) level); [ | reflexivity].
  now rewrite IH.
Qed.

Lemma starter_count_SW1 :
  forall (fuel : nat) (range : Z) (s : board),
    SW1 (snd (Starter.count_range fuel range s)) = SW1 s.
Proof.
  induction fuel as [| fuel IH]; intros range s; [reflexivity | ].
  cbn -[Z.ltb Z.add]. destruct (ECHO_line s (reads s)); [ | reflexivity].
  now rewrite IH.
Qed.

Lemma starter_range_SW1 (fuel : nat) (s : board) :
  SW1 (snd (Starter.sonar_range fuel s)) = SW1 s.
Proof.
  rewrite starter_range_unfold. unfold bind.
  pose proof (while_ECHO_SW1 false fuel (after_trigger s)) as Hwait.
  destruct (while_ECHO false fuel (after_trigger s)) as [[[] | ] s1];
    cbn in Hwait |- *.
  - now rewrite starter_count_SW1.
  - exact Hwait.
Qed.

(** * The claims *)

(** ** The starter routine *)

(** C1 (as the spec states it, refuted): the starter routine does not return
    min(D, 255) for every simulated duration D.  On a pulse of 0 ticks - seen
    to start, gone before the first 58 microsecond delay is over - it returns
    1, and never min(0, 255) = 0. *)
Lemma starter_range_zero_ticks :
  sees (power_on (sim_echo 2 0)) (sim_echo 2 0)
  /\ returns Starter.sonar_range (power_on (sim_echo 2 0)) 1
  /\ ~ returns Starter.sonar_range (power_on (sim_echo 2 0)) (Z.min 0 255).
Proof.
  split; [apply sees_power_on | split].
  - exists 5%nat. reflexivity.
  - intros [fuel Hrun]. apply starter_range_bounds in Hrun. lia.
Qed.

(** C1 (amended): for every simulated echo pulse of D >= 1 ticks of 58
    microseconds, the starter routine returns min(D, 255); a pulse of 1000
    ticks yields exactly 255, the 8-bit counter does not go round. *)
Theorem starter_range_min_255 (s : board) (idle : nat) (D : Z) :
  sees s (sim_echo idle D) ->
  1 <= D ->
  returns Starter.sonar_range s (Z.min D 255)
  /\ (D = 1000 -> returns Starter.sonar_range s 255).
Proof.
  intros Hsees HD.
  assert (Hret : returns Starter.sonar_range s (Z.min D 255)).
  { exists (S (Nat.max idle (Z.to_nat (Z.max D 1 - 1)))).
    rewrite (starter_range_sim s idle D Hsees) by lia.
    f_equal. lia. }
  split; [exact Hret | ].
  intros ->. exact Hret.
Qed.

Lemma starter_range_min_255_witness :
  returns Starter.sonar_range (power_on (sim_echo 3 15)) (Z.min 15 255)
  /\ returns Starter.sonar_range (power_on (sim_echo 3 1000)) 255.
Proof.
  split.
  - apply (starter_range_min_255 (power_on (sim_echo 3 15)) 3 15);
      [apply sees_power_on | lia].
  - apply (starter_range_min_255 (power_on (sim_echo 3 1000)) 3 1000);
      [apply sees_power_on | lia | reflexivity].
Defined.

(** C7: the echo line asserted for exactly 58 x 15 microseconds, no bound: the
    starter routine returns 15, the display maps 15 to level 3, and one turn
    of the main loop leaves 15 in [distance] and the three-LED pattern
    0b01110000 in LATC. *)
Theorem scenario_15_ticks (idle : nat) :
  let s := power_on (hold false idle (pulse_us (58 * 15))) in
  returns Starter.sonar_range s 15
  /\ map_to_display 15 = 3
  /\ exists fuel s',
      Starter.main_loop_body fuel s = (Some false, s')
      /\ distance s' = 15
      /\ LATC s' = 112
      /\ leds_lit (LATC s') = 3.
Proof.
  intros s.
  assert (Hrun : fst (Starter.sonar_range (S (Nat.max idle 14)) s) = Some 15).
  { rewrite (starter_range_sim s idle 15); [reflexivity | | lia].
    apply sees_power_on. }
  split; [ | split].
  - exists (S (Nat.max idle 14)). exact Hrun.
  - reflexivity.
  - exists (S (Nat.max idle 14)).
    unfold Starter.main_loop_body, bind at 1.
    destruct (Starter.sonar_range (S (Nat.max idle 14)) s) as [r s1] eqn:Hs1.
    assert (Hsw : SW1 s1 = true).
    { replace s1 with (snd (Starter.sonar_range (S (Nat.max idle 14)) s))
        by (rewrite Hs1; reflexivity).
      apply starter_range_SW1. }
    cbn in Hrun. subst r. cbn. rewrite Hsw. cbn.
    eexists. repeat split.
Qed.

(** C8: the starter routine comes back on every echo line that shows a high
    sample and a low sample after it; on an echo line that never goes high it
    never comes back (the wait [while(ECHO == 0);] has no timeout). *)
Theorem starter_range_termination (s : board) :
  ((exists i j, (i < j)%nat
                /\ ECHO_line s (reads s + i)%nat = true
                /\ ECHO_line s (reads s + j)%nat = false) ->
   exists r, returns Starter.sonar_range s r)
  /\ ((forall k, ECHO_line s (reads s + k)%nat = false) ->
      hangs Starter.sonar_range s).
Proof.
  split.
  - intros (i & j & Hij & Hi & Hj).
    destruct (while_ECHO_terminates false i (after_trigger s) Hi)
      as (f1 & s1 & Hwait & Hline & Hreads & _).
    cbn in Hline, Hreads.
    destruct (starter_count_terminates (reads s + j - reads s1) 0 s1)
      as (f2 & r & Hcount).
    { rewrite Hline. rewrite <- Hj. f_equal. lia. }
    exists r, (Nat.max f1 f2).
    rewrite starter_range_unfold. unfold bind.
    rewrite Hwait by lia. apply Hcount. lia.
  - intros Hlow fuel.
    rewrite starter_range_unfold. unfold bind.
    pose proof (while_ECHO_spins false fuel (after_trigger s) Hlow) as Hspin.
    destruct (while_ECHO false fuel (after_trigger s)) as [[[] | ] s1];
      [discriminate | reflexivity].
Qed.

Lemma starter_range_termination_witness :
  (exists r, returns Starter.sonar_range (power_on (sim_echo 3 15)) r)
  /\ hangs Starter.sonar_range (power_on (fun _ => false)).
Proof.
  split.
  - apply (starter_range_termination (power_on (sim_echo 3 15))).
    exists 3%nat, 18%nat. repeat split. lia.
  - apply (starter_range_termination (power_on (fun _ => false))).
    intros k. reflexivity.
Defined.

(** C9: on every echo line on which the starter routine comes back, it comes
    back with at least 1: the do-while counts once before it first tests
    ECHO, so 0 is never returned, not even for a pulse below one tick. *)
Theorem starter_range_at_least_1 (s : board) (r : Z) :
  returns Starter.sonar_range s r -> 1 <= r.
Proof.
  intros [fuel Hrun]. apply starter_range_bounds in Hrun. lia.
Qed.

Lemma starter_range_at_least_1_witness :
  returns Starter.sonar_range (power_on (hold false 2 (pulse_us 30))) 1
  /\ 1 <= 1.
Proof.
  assert (Hret : returns Starter.sonar_range
                   (power_on (hold false 2 (pulse_us 30))) 1).
  { exists 5%nat. reflexivity. }
  split; [exact Hret | ].
  exact (starter_range_at_least_1 (power_on (hold false 2 (pulse_us 30))) 1 Hret).
Defined.

(** ** The display *)

(** C4: the display is a function of the distance alone - whatever the board
    state, the cascade leaves [led_pattern d] in LATC - and its level is the
    step function read off by strict [>] tests from the top, the first that
    holds deciding; at the boundaries: 21 -> 4, 20 -> 3, 11 -> 3, 10 -> 2,
    6 -> 2, 5 -> 1, 2 -> 1, 1 -> 0, 0 -> 0. *)
Theorem display_levels :
  (forall (d : Z) (s : board),
     fst (Starter.display d s) = Some tt
     /\ LATC (snd (Starter.display d s)) = Starter.led_pattern d)
  /\ (forall d : Z,
        map_to_display d
        = if d >? 20 then 4
          else if d >? 10 then 3
          else if d >? 5 then 2
          else if d >? 1 then 1
          else 0)
  /\ map_to_display 21 = 4 /\ map_to_display 20 = 3 /\ map_to_display 11 = 3
  /\ map_to_display 10 = 2 /\ map_to_display 6 = 2 /\ map_to_display 5 = 1
  /\ map_to_display 2 = 1 /\ map_to_display 1 = 0 /\ map_to_display 0 = 0.
Proof.
  split; [ | split].
  - intros d s. split; [reflexivity | ].
    unfold Starter.display, write_LATC, Starter.led_pattern. cbn [snd LATC].
    destruct (d >? 20); [reflexivity | ].
    destruct (d >? 10); [reflexivity | ].
    destruct (d >? 5); [reflexivity | ].
    destruct (d >? 1); reflexivity.
  - intros d. unfold map_to_display, Starter.led_pattern.
    destruct (d >? 20); [reflexivity | ].
    destruct (d >? 10); [reflexivity | ].
    destruct (d >? 5); [reflexivity | ].
    destruct (d >? 1); reflexivity.
  - repeat split.
Qed.

(** ** The revised routine *)

(** C5: whatever the level of the echo line, [sonar_ready] returns true if
    and only if ECHO reads low: its result is the negation of the sample. *)
Theorem sonar_ready_is_echo_low (s : board) :
  fst (Revised.sonar_ready s) = Some (negb (ECHO_line s (reads s))).
Proof.
  unfold Revised.sonar_ready, bind. cbn.
  destruct (ECHO_line s (reads s)); reflexivity.
Qed.

(** C2 (as the spec states it, refuted): with bound M = 2 > 0 and a pulse of
    D = 0 < M ticks the revised routine returns 1, and never D = 0. *)
Lemma revised_range_zero_ticks :
  sees (power_on (sim_echo_revised 1 2 0)) (sim_echo_revised 1 2 0)
  /\ 0 < 2 /\ 0 < 2
  /\ returns (fun fuel => Revised.sonar_range fuel 2)
             (power_on (sim_echo_revised 1 2 0)) 1
  /\ ~ returns (fun fuel => Revised.sonar_range fuel 2)
               (power_on (sim_echo_revised 1 2 0)) 0.
Proof.
  split; [apply sees_power_on | ].
  split; [lia | split; [lia | ]].
  assert (Hret : returns (fun fuel => Revised.sonar_range fuel 2)
                         (power_on (sim_echo_revised 1 2 0)) 1).
  { exists 5%nat. reflexivity. }
  split; [exact Hret | ].
  intros Hzero.
  pose proof (revised_returns_unique 2 _ _ _ Hret Hzero). discriminate.
Qed.

(** C2 (amended): for every simulated echo pulse of D >= 1 ticks and every
    bound M in 1..255, the revised routine returns D when D < M and 0 when
    D >= M. *)
Theorem revised_range_bounded
        (s : board) (busy idle : nat) (D M : Z) :
  sees s (sim_echo_revised busy idle D) ->
  1 <= D ->
  0 < M <= 255 ->
  returns (fun fuel => Revised.sonar_range fuel M) s
          (if D <? M then D else 0).
Proof.
  intros Hsees HD HM.
  destruct (Z.ltb_spec D M) as [Hlt | Hge].
  - exists (S (Nat.max (Nat.max busy idle) (Z.to_nat (Z.max D 1 - 1)))).
    rewrite (revised_range_sim_within s busy idle D M) by (assumption || lia).
    f_equal. lia.
  - exists (S (Nat.max (Nat.max busy idle) 255)).
    apply (revised_range_sim_beyond s busy idle D M); [assumption | lia | lia].
Qed.

Lemma revised_range_bounded_witness :
  returns (fun fuel => Revised.sonar_range fuel 90)
          (power_on (sim_echo_revised 2 3 89)) 89
  /\ returns (fun fuel => Revised.sonar_range fuel 90)
             (power_on (sim_echo_revised 2 3 90)) 0.
Proof.
  split.
  - apply (revised_range_bounded (power_on (sim_echo_revised 2 3 89)) 2 3 89 90);
      [apply sees_power_on | lia | lia].
  - apply (revised_range_bounded (power_on (sim_echo_revised 2 3 90)) 2 3 90 90);
      [apply sees_power_on | lia | lia].
Defined.

(** C3 (the code at the failing input): called with [maxRange] 0 the revised
    routine does not return 0 for a pulse of D ticks, 1 <= D <= 255: the
    counter is 1 at the first test [range == maxRange] and does not equal 0
    before it has gone round, so the routine returns D. *)
Theorem revised_range_max_0 (s : board) (busy idle : nat) (D : Z) :
  sees s (sim_echo_revised busy idle D) ->
  1 <= D <= 255 ->
  returns (fun fuel => Revised.sonar_range fuel 0) s D
  /\ ~ returns (fun fuel => Revised.sonar_range fuel 0) s 0.
Proof.
  intros Hsees HD.
  assert (Hret : returns (fun fuel => Revised.sonar_range fuel 0) s D).
  { exists (S (Nat.max (Nat.max busy idle) (Z.to_nat (Z.max D 1 - 1)))).
    rewrite (revised_range_sim_within s busy idle D 0) by (assumption || lia).
    f_equal. lia. }
  split; [exact Hret | ].
  intros Hzero.
  pose proof (revised_returns_unique 0 _ _ _ Hret Hzero). lia.
Qed.

Lemma revised_range_max_0_witness :
  returns (fun fuel => Revised.sonar_range fuel 0)
          (power_on (sim_echo_revised 2 3 5)) 5
  /\ ~ returns (fun fuel => Revised.sonar_range fuel 0)
               (power_on (sim_echo_revised 2 3 5)) 0.
Proof.
  apply (revised_range_max_0 (power_on (sim_echo_revised 2 3 5)) 2 3 5);
    [apply sees_power_on | lia].
Defined.

(** With [maxRange] 0 the 0 comes back only for a pulse of 256 ticks or more,
    in the 256th turn of the loop. *)
Lemma revised_zero_bound_goes_round (s : board) (busy idle : nat) (D : Z) :
  sees s (sim_echo_revised busy idle D) ->
  256 <= D ->
  returns (fun fuel => Revised.sonar_range fuel 0) s 0.
Proof.
  intros Hsees HD.
  exists (S (Nat.max (Nat.max busy idle) 255)).
  apply (revised_range_sim_beyond s busy idle D 0); [assumption | lia | lia].
Qed.

(** C10: for every bound M > 0 and every echo line on which the revised
    routine comes back, it comes back with a value below M: 0, or a count in
    1..M-1. *)
Theorem revised_range_below_max (M : Z) (s : board) (r : Z) :
  0 < M ->
  returns (fun fuel => Revised.sonar_range fuel M) s r ->
  0 <= r < M.
Proof.
  intros HM [fuel Hrun]. now apply (revised_range_bounds fuel M s r).
Qed.

Lemma revised_range_below_max_witness :
  returns (fun fuel => Revised.sonar_range fuel 90)
          (power_on (sim_echo_revised 2 3 89)) 89
  /\ 0 <= 89 < 90.
Proof.
  assert (Hret : returns (fun fuel => Revised.sonar_range fuel 90)
                         (power_on (sim_echo_revised 2 3 89)) 89).
  { exists 100%nat. vm_compute. reflexivity. }
  split; [exact Hret | ].
  apply (revised_range_below_max 90 (power_on (sim_echo_revised 2 3 89)) 89);
    [lia | exact Hret].
Defined.

(** C6: in every execution of the revised routine - finished or still
    spinning, on any echo line - whatever comes before a trigger (TRIG driven
    high) is a run of reads that saw ECHO high, then a read that saw ECHO low,
    then the 1 ms settle delay.  So no trigger is given before ECHO has been
    seen low, and there is one trigger at most. *)
Theorem revised_trigger_after_echo_low
        (fuel : nat) (maxRange : Z) (s : board) (pre post : list event) :
  emitted (Revised.sonar_range fuel maxRange) s = pre ++ EvTrig true :: post ->
  exists n, pre = repeat (EvEcho true) n ++ [EvEcho false; EvDelayMs 1].
Proof.
  intros Hsplit.
  destruct (revised_range_emitted fuel maxRange s)
    as [n [Hspin | (rest & Hrun & Hquiet)]].
  - exfalso. rewrite Hspin in Hsplit.
    assert (Hin : In (EvTrig true) (repeat (EvEcho true) n)).
    { rewrite Hsplit. apply in_or_app. right. left. reflexivity. }
    apply repeat_spec in Hin. discriminate.
  - exists n. rewrite Hrun in Hsplit.
    apply (split_at_trigger _ rest pre post); [ | assumption | exact Hsplit].
    apply Forall_app. split; [ | repeat constructor].
    apply Forall_forall. intros e He.
    apply repeat_spec in He. subst e. reflexivity.
Qed.

Lemma revised_trigger_after_echo_low_witness :
  exists n,
    [EvEcho true; EvEcho true; EvEcho false; EvDelayMs 1]
    = repeat (EvEcho true) n ++ [EvEcho false; EvDelayMs 1].
Proof.
  apply (revised_trigger_after_echo_low 20 3
           (power_on (sim_echo_revised 2 3 5))
           [EvEcho true; EvEcho true; EvEcho false; EvDelayMs 1]
           [EvDelayUs 20; EvTrig false; EvEcho false; EvEcho false;
            EvEcho false; EvEcho true; EvDelayUs 58; EvEcho true;
            EvDelayUs 58; EvEcho true; EvDelayUs 58]).
  vm_compute. reflexivity.
Defined.

(** * Further properties of the program *)

(** ** Event traces of the loops *)

Lemma rev_cons2 {A : Type} (a b : A) (l t : list A) :
  rev (a :: b :: l) ++ t = rev l ++ b :: a :: t.
Proof. cbn [rev]. rewrite <- !app_assoc. reflexivity. Qed.

Lemma adds_nothing (s : board) : adds s s [].
Proof. reflexivity. Qed.

Lemma adds_then (s s1 s2 : board) (l1 l2 : list event) :
  adds s s1 l1 -> adds s1 s2 l2 -> adds s s2 (l1 ++ l2).
Proof.
  unfold adds. intros H1 H2.
  rewrite H2, H1, rev_app_distr, app_assoc. reflexivity.
Qed.

Lemma adds_emitted {A : Type} (c : M A) (s : board) (l : list event) :
  adds s (snd (c s)) l -> emitted c s = l.
Proof.
  intros Hadds. rewrite (emitted_of_log c s (rev l) Hadds).
  apply rev_involutive.
Qed.

Lemma adds_after_trigger (s : board) :
  adds s (after_trigger s) [EvTrig true; EvDelayUs 20; EvTrig false].
Proof. reflexivity. Qed.

(** A wait that ends has read ECHO at [level] some times and then once at the
    other level. *)
Lemma while_ECHO_trace (level : bool) (fuel : nat) (s s' : board) :
  while_ECHO level fuel s = (Some tt, s') ->
  exists n, adds s s' (repeat (EvEcho level) n ++ [EvEcho (negb level)]).
Proof.
  intros Hrun. destruct (while_ECHO_log level fuel s) as [n Hlog].
  rewrite Hrun in Hlog. cbn in Hlog.
  exists n. unfold adds.
  rewrite rev_app_distr, rev_repeat. exact Hlog.
Qed.

(** A wait that has not yet met a sample off [level] is still spinning. *)
Lemma while_ECHO_short (level : bool) :
  forall (fuel : nat) (s : board),
    (forall k, (k < fuel)%nat -> ECHO_line s (reads s + k)%nat = level) ->
    fst (while_ECHO level fuel s) = None.
Proof.
  induction fuel as [| fuel IH]; intros s Hall; [reflexivity | ].
  assert (H0 : ECHO_line s (reads s) = level).
  { rewrite <- (Hall 0%nat) by lia. f_equal. lia. }
  cbn. rewrite H0, eqb_reflx. apply IH.
  intros k Hk. cbn. rewrite <- (Hall (S k)) by lia. f_equal. lia.
Qed.

(** A counting loop of the starter routine that ends has turned [k] times on
    ECHO high and once more on ECHO low. *)
Lemma starter_count_trace :
  forall (fuel : nat) (range : Z) (s s' : board) (r : Z),
    0 <= range <= 255 ->
    Starter.count_range fuel range s = (Some r, s') ->
    exists k,
      adds s s' (turns k ++ [EvDelayUs 58; EvEcho false])
      /\ r = Z.min (range + Z.of_nat k + 1) 255.
Proof.
  induction fuel as [| fuel IH]; intros range s s' r Hr Hrun;
    [discriminate | ].
  cbn -[Z.ltb Z.add] in Hrun.
  rewrite starter_increment in Hrun by assumption.
  destruct (ECHO_line s (reads s)) eqn:H0.
  - apply IH in Hrun; [ | lia].
    destruct Hrun as (k & Hadds & Hres).
    exists (S k). split.
    + unfold adds in Hadds |- *. rewrite Hadds. cbn [log turns app].
      rewrite rev_cons2. reflexivity.
    + lia.
  - cbn in Hrun. injection Hrun as <- <-.
    exists 0%nat. split; [reflexivity | lia].
Qed.

(** While ECHO stays high the counting loop of the starter routine does not
    end. *)
Lemma starter_count_spins :
  forall (fuel : nat) (range : Z) (s : board),
    (forall k, ECHO_line s (reads s + k)%nat = true) ->
    fst (Starter.count_range fuel range s) = None.
Proof.
  induction fuel as [| fuel IH]; intros range s Hhigh; [reflexivity | ].
  assert (H0 : ECHO_line s (reads s) = true).
  { rewrite <- (Hhigh 0%nat). f_equal. lia. }
  cbn -[Z.ltb Z.add]. rewrite H0. apply IH.
  intros k. cbn. rewrite <- (Hhigh (S k)). f_equal. lia.
Qed.

(** The starter routine gets to its counting loop with the samples after the
    first high one ahead. *)
Lemma starter_range_reaches
      (s : board) (idle : nat) (echo : nat -> bool) (fuel : nat) :
  sees s (hold false idle echo) ->
  echo 0%nat = true ->
  (idle < fuel)%nat ->
  exists s1,
    Starter.sonar_range fuel s = Starter.count_range fuel 0 s1
    /\ forall k, ECHO_line s1 (reads s1 + k)%nat = echo (S k).
Proof.
  intros Hsees Hstart Hfuel. rewrite starter_range_unfold. unfold bind.
  destruct (while_ECHO_exits false idle fuel (after_trigger s))
    as (s1 & Hwait & Hline & Hreads).
  - exact Hfuel.
  - intros k Hk. cbn. rewrite Hsees. now apply hold_before.
  - cbn. rewrite Hsees.
    rewrite <- (Nat.add_0_r idle) at 2. rewrite hold_after. exact Hstart.
  - rewrite Hwait. exists s1. split; [reflexivity | ].
    intros k. rewrite Hline, Hreads. cbn.
    replace (reads s + S idle + k)%nat with (reads s + (idle + S k))%nat
      by lia.
    rewrite Hsees. apply hold_after.
Qed.

(** ** The starter routine: rounding, trace, stuck echo *)

(** The starter routine on a pulse given in microseconds. *)
Lemma starter_range_pulse_us (s : board) (idle : nat) (dur : Z) (fuel : nat) :
  sees s (hold false idle (pulse_us dur)) ->
  1 <= dur ->
  (Nat.max idle (Z.to_nat ((dur + 57) / 58 - 1)) < fuel)%nat ->
  fst (Starter.sonar_range fuel s) = Some (Z.min ((dur + 57) / 58) 255).
Proof.
  intros Hsees Hdur Hfuel.
  pose (n := Z.to_nat ((dur + 57) / 58 - 1)).
  assert (Hq : 1 <= (dur + 57) / 58).
  { apply Z.div_le_lower_bound; lia. }
  assert (Hlo : 58 * ((dur + 57) / 58) < dur + 58).
  { pose proof (Z.mul_div_le (dur + 57) 58). lia. }
  assert (Hhi : dur <= 58 * ((dur + 57) / 58)).
  { pose proof (Z.mul_succ_div_gt (dur + 57) 58). lia. }
  destruct (starter_range_reaches s idle (pulse_us dur) fuel)
    as (s1 & -> & Hahead); [assumption | reflexivity | lia | ].
  rewrite (starter_count_exits n).
  - f_equal. unfold n. lia.
  - unfold n. lia.
  - lia.
  - intros k Hk. rewrite Hahead. unfold pulse_us, TICK_US.
    apply Z.ltb_lt. unfold n in Hk. lia.
  - rewrite Hahead. unfold pulse_us, TICK_US.
    apply Z.ltb_ge. unfold n. lia.
Qed.

(** X1: on an echo pulse of [dur] >= 1 microseconds the starter routine
    returns the pulse length in units of 58 microseconds, rounded up and
    capped at 255. *)
Theorem starter_range_rounds_up (s : board) (idle : nat) (dur : Z) :
  sees s (hold false idle (pulse_us dur)) ->
  1 <= dur ->
  returns Starter.sonar_range s (Z.min ((dur + 57) / 58) 255).
Proof.
  intros Hsees Hdur.
  exists (S (Nat.max idle (Z.to_nat ((dur + 57) / 58 - 1)))).
  apply (starter_range_pulse_us s idle dur); [assumption | assumption | lia].
Qed.

Lemma starter_range_rounds_up_witness :
  returns Starter.sonar_range (power_on (hold false 3 (pulse_us 1438)))
          (Z.min ((1438 + 57) / 58) 255).
Proof.
  apply (starter_range_rounds_up (power_on (hold false 3 (pulse_us 1438)))
           3 1438); [apply sees_power_on | lia].
Defined.

(** X2: every call of the starter routine that comes back has done this and
    nothing else: the trigger pulse with no look at ECHO before it, reads of
    ECHO low, one read of ECHO high, [k] turns of the counting loop on ECHO
    high and a last turn that read ECHO low.  Its result is the number of
    delays of 58 microseconds, [k + 1], capped at 255. *)
Theorem starter_range_trace (fuel : nat) (s : board) (r : Z) :
  fst (Starter.sonar_range fuel s) = Some r ->
  exists w k,
    emitted (Starter.sonar_range fuel) s
    = [EvTrig true; EvDelayUs 20; EvTrig false]
        ++ repeat (EvEcho false) w ++ [EvEcho true]
        ++ turns k ++ [EvDelayUs 58; EvEcho false]
    /\ r = Z.min (Z.of_nat k + 1) 255.
Proof.
  intros Hrun.
  assert (Hsplit : exists s1 s2,
             while_ECHO false fuel (after_trigger s) = (Some tt, s1)
             /\ Starter.count_range fuel 0 s1 = (Some r, s2)
             /\ snd (Starter.sonar_range fuel s) = s2).
  { rewrite starter_range_unfold in Hrun. rewrite starter_range_unfold.
    unfold bind in Hrun |- *.
    destruct (while_ECHO false fuel (after_trigger s)) as [[[] | ] s1]
      eqn:Hwait; [ | discriminate].
    destruct (Starter.count_range fuel 0 s1) as [o s2] eqn:Hcount.
    cbn in Hrun. subst o. exists s1, s2. repeat split; assumption. }
  destruct Hsplit as (s1 & s2 & Hwait & Hcount & Hend).
  apply while_ECHO_trace in Hwait. destruct Hwait as [w Hwait].
  apply starter_count_trace in Hcount; [ | lia].
  destruct Hcount as (k & Hturns & Hres).
  exists w, k. split; [ | lia].
  apply adds_emitted. rewrite Hend.
  pose proof (adds_then _ _ _ _ _ (adds_after_trigger s) Hwait) as H1.
  pose proof (adds_then _ _ _ _ _ H1 Hturns) as H2.
  rewrite <- !app_assoc in H2. exact H2.
Qed.

Lemma starter_range_trace_witness :
  exists w k,
    emitted (Starter.sonar_range 10) (power_on (sim_echo 2 3))
    = [EvTrig true; EvDelayUs 20; EvTrig false]
        ++ repeat (EvEcho false) w ++ [EvEcho true]
        ++ turns k ++ [EvDelayUs 58; EvEcho false]
    /\ 3 = Z.min (Z.of_nat k + 1) 255.
Proof.
  apply (starter_range_trace 10 (power_on (sim_echo 2 3)) 3).
  reflexivity.
Defined.

(** X3: if ECHO goes high and stays high (a stuck line), the starter routine
    never comes back: its counting loop has no exit but ECHO low. *)
Theorem starter_range_stuck_echo (s : board) (idle : nat) :
  sees s (hold false idle (fun _ => true)) ->
  hangs Starter.sonar_range s.
Proof.
  intros Hsees fuel.
  destruct (Nat.le_gt_cases fuel idle) as [Hshort | Hlong].
  - rewrite starter_range_unfold. unfold bind.
    pose proof (while_ECHO_short false fuel (after_trigger s)) as Hwait.
    destruct (while_ECHO false fuel (after_trigger s)) as [[[] | ] s1];
      [ | reflexivity].
    cbn in Hwait. enough (Some tt = None) by discriminate.
    apply Hwait. intros k Hk. rewrite Hsees. apply hold_before. lia.
  - destruct (starter_range_reaches s idle (fun _ => true) fuel Hsees)
      as (s1 & -> & Hahead); [reflexivity | lia | ].
    now apply starter_count_spins.
Qed.

Lemma starter_range_stuck_echo_witness :
  hangs Starter.sonar_range (power_on (hold false 3 (fun _ => true))).
Proof.
  apply (starter_range_stuck_echo (power_on (hold false 3 (fun _ => true))) 3).
  apply sees_power_on.
Defined.

(** ** The revised routine: trace, termination, stuck echo *)

(** A counting loop of the revised routine that ends has turned [k] times on
    ECHO high and then either met the bound - after the delay, without
    another look at ECHO - or read ECHO low. *)
Lemma revised_count_trace (maxRange : Z) :
  forall (fuel : nat) (range : Z) (s s' : board) (r : Z),
    0 <= range < maxRange ->
    maxRange <= 255 ->
    Revised.count_range fuel maxRange range s = (Some r, s') ->
    exists k,
      adds s s' (turns k ++ if r =? 0 then [EvDelayUs 58]
                            else [EvDelayUs 58; EvEcho false])
      /\ range + Z.of_nat k + 1 = (if r =? 0 then maxRange else r).
Proof.
  induction fuel as [| fuel IH]; intros range s s' r Hr HM Hrun;
    [discriminate | ].
  cbn -[Z.eqb Z.add] in Hrun. rewrite u8_small in Hrun by lia.
  destruct (Z.eqb_spec (range + 1) maxRange) as [Hhit | Hmiss].
  - cbn in Hrun. injection Hrun as <- <-.
    exists 0%nat. split; [reflexivity | cbn; lia].
  - cbn -[Z.eqb Z.add] in Hrun.
    destruct (ECHO_line s (reads s)) eqn:H0.
    + apply IH in Hrun; [ | lia | lia].
      destruct Hrun as (k & Hadds & Hres).
      exists (S k). split.
      * unfold adds in Hadds |- *. rewrite Hadds. cbn [log turns app].
        rewrite rev_cons2. reflexivity.
      * lia.
    + cbn in Hrun. injection Hrun as <- <-.
      exists 0%nat.
      destruct (Z.eqb_spec (range + 1) 0) as [Hz | _]; [lia | ].
      split; [reflexivity | lia].
Qed.

(** Whatever ECHO does, the counting loop of the revised routine is over
    within 256 turns: the 8-bit counter meets every bound, 0 included, on its
    way round. *)
Lemma revised_count_total (maxRange : Z) (n : nat) :
  forall (range : Z) (s : board),
    0 <= range <= 255 ->
    0 <= maxRange <= 255 ->
    range + Z.of_nat n + 1 = maxRange
    \/ range + Z.of_nat n + 1 = maxRange + 256 ->
    exists r, fst (Revised.count_range (S n) maxRange range s) = Some r.
Proof.
  induction n as [| n IH]; intros range s Hr HM Hhit;
    cbn -[Z.eqb Z.add Z.of_nat].
  - assert (Hu : u8 (range + 1) = maxRange).
    { destruct Hhit as [H | H].
      - rewrite u8_small by lia. lia.
      - replace (range + 1) with 256 by lia.
        replace maxRange with 0 by lia. reflexivity. }
    rewrite Hu, Z.eqb_refl. exists 0. reflexivity.
  - destruct (u8 (range + 1) =? maxRange); [exists 0; reflexivity | ].
    cbn -[Z.eqb Z.add Z.of_nat].
    destruct (ECHO_line s (reads s)); [ | eexists; reflexivity].
    apply IH; [ | assumption | ].
    + unfold u8. pose proof (Z.mod_pos_bound (range + 1) 256). lia.
    + destruct (Z.eq_dec range 255) as [-> | Hne].
      * change (u8 (255 + 1)) with 0. lia.
      * rewrite u8_small by lia. lia.
Qed.

Lemma revised_count_ends (maxRange range : Z) (s : board) :
  0 <= range <= 255 ->
  0 <= maxRange <= 255 ->
  exists r, fst (Revised.count_range 256 maxRange range s) = Some r.
Proof.
  intros Hr HM.
  pose (n := Z.to_nat (if range <? maxRange then maxRange - range - 1
                       else maxRange + 256 - range - 1)).
  destruct (revised_count_total maxRange n range s Hr HM) as [r Hrun].
  { unfold n. destruct (Z.ltb_spec range maxRange); lia. }
  exists r. apply (revised_count_more_fuel maxRange (S n) 256); [ | exact Hrun].
  unfold n. destruct (Z.ltb_spec range maxRange); lia.
Qed.

(** The revised routine gets to its counting loop once the previous pulse is
    over and the new one has begun. *)
Lemma revised_range_reaches
      (s : board) (busy idle : nat) (echo : nat -> bool)
      (maxRange : Z) (fuel : nat) :
  sees s (hold true busy (hold false (S idle) echo)) ->
  echo 0%nat = true ->
  (Nat.max busy idle < fuel)%nat ->
  exists s3,
    Revised.sonar_range fuel maxRange s
    = Revised.count_range fuel maxRange 0 s3
    /\ forall k, ECHO_line s3 (reads s3 + k)%nat = echo (S k).
Proof.
  intros Hsees Hstart Hfuel. rewrite revised_range_unfold. unfold bind.
  destruct (while_ECHO_exits true busy fuel s) as (s1 & Hpre & Hline1 & Hreads1).
  - lia.
  - intros k Hk. rewrite Hsees. now apply hold_before.
  - rewrite Hsees.
    rewrite <- (Nat.add_0_r busy) at 2. rewrite hold_after. reflexivity.
  - rewrite Hpre.
    destruct (while_ECHO_exits false idle fuel
                (after_trigger (snd (delay_ms 1 s1))))
      as (s2 & Hwait & Hline2 & Hreads2).
    + lia.
    + intros k Hk. cbn. rewrite Hline1, Hreads1.
      replace (reads s + S busy + k)%nat with (reads s + (busy + S k))%nat
        by lia.
      rewrite Hsees, hold_after. apply hold_before. lia.
    + cbn. rewrite Hline1, Hreads1.
      replace (reads s + S busy + idle)%nat
        with (reads s + (busy + (S idle + 0)))%nat by lia.
      rewrite Hsees, !hold_after. exact Hstart.
    + rewrite Hwait. exists s2. split; [reflexivity | ].
      intros k. rewrite Hline2, Hreads2. cbn. rewrite Hline1, Hreads1.
      replace (reads s + S busy + S idle + k)%nat
        with (reads s + (busy + (S idle + S k)))%nat by lia.
      now rewrite Hsees, !hold_after.
Qed.

(** X4: every call of the revised routine with a bound M in 1..255 that comes
    back has done this and nothing else: reads of ECHO high, a read of ECHO
    low, the settle delay, the trigger pulse, reads of ECHO low, one read of
    ECHO high and [k] turns of the counting loop on ECHO high.  A result
    r > 0 comes after one more turn that read ECHO low, and r is the number
    of delays of 58 microseconds.  The result 0 comes straight after the
    M-th delay, the last read of ECHO having seen it high: the echo pulse is
    still there when the routine is back. *)
Theorem revised_range_trace (fuel : nat) (M : Z) (s : board) (r : Z) :
  0 < M <= 255 ->
  fst (Revised.sonar_range fuel M s) = Some r ->
  exists b w k,
    emitted (Revised.sonar_range fuel M) s
    = repeat (EvEcho true) b
        ++ [EvEcho false; EvDelayMs 1; EvTrig true; EvDelayUs 20; EvTrig false]
        ++ repeat (EvEcho false) w ++ [EvEcho true]
        ++ turns k
        ++ (if r =? 0 then [EvDelayUs 58] else [EvDelayUs 58; EvEcho false])
    /\ Z.of_nat k + 1 = (if r =? 0 then M else r).
Proof.
  intros HM Hrun.
  assert (Hsplit : exists s1 s2 s3,
             while_ECHO true fuel s = (Some tt, s1)
             /\ while_ECHO false fuel (after_trigger (snd (delay_ms 1 s1)))
                = (Some tt, s2)
             /\ Revised.count_range fuel M 0 s2 = (Some r, s3)
             /\ snd (Revised.sonar_range fuel M s) = s3).
  { rewrite revised_range_unfold in Hrun. rewrite revised_range_unfold.
    unfold bind in Hrun |- *.
    destruct (while_ECHO true fuel s) as [[[] | ] s1] eqn:Hpre;
      [ | discriminate].
    destruct (while_ECHO false fuel (after_trigger (snd (delay_ms 1 s1))))
      as [[[] | ] s2] eqn:Hwait; [ | discriminate].
    destruct (Revised.count_range fuel M 0 s2) as [o s3] eqn:Hcount.
    cbn in Hrun. subst o. exists s1, s2, s3. repeat split; assumption. }
  destruct Hsplit as (s1 & s2 & s3 & Hpre & Hwait & Hcount & Hend).
  apply while_ECHO_trace in Hpre. destruct Hpre as [b Hpre].
  apply while_ECHO_trace in Hwait. destruct Hwait as [w Hwait].
  apply revised_count_trace in Hcount; [ | lia | lia].
  destruct Hcount as (k & Hturns & Hres).
  exists b, w, k. split; [ | lia].
  apply adds_emitted. rewrite Hend.
  assert (Hpulse : adds s1 (after_trigger (snd (delay_ms 1 s1)))
                        [EvDelayMs 1; EvTrig true; EvDelayUs 20; EvTrig false])
    by reflexivity.
  pose proof (adds_then _ _ _ _ _ Hpre Hpulse) as H1.
  pose proof (adds_then _ _ _ _ _ H1 Hwait) as H2.
  pose proof (adds_then _ _ _ _ _ H2 Hturns) as H3.
  rewrite <- !app_assoc in H3. exact H3.
Qed.

Lemma revised_range_trace_witness :
  exists b w k,
    emitted (Revised.sonar_range 10 3) (power_on (sim_echo_revised 2 3 5))
    = repeat (EvEcho true) b
        ++ [EvEcho false; EvDelayMs 1; EvTrig true; EvDelayUs 20; EvTrig false]
        ++ repeat (EvEcho false) w ++ [EvEcho true]
        ++ turns k
        ++ (if 0 =? 0 then [EvDelayUs 58] else [EvDelayUs 58; EvEcho false])
    /\ Z.of_nat k + 1 = (if 0 =? 0 then 3 else 0).
Proof.
  apply (revised_range_trace 10 3 (power_on (sim_echo_revised 2 3 5)) 0);
    [lia | reflexivity].
Defined.

(** X5: with a bound that fits a byte, the revised routine comes back on
    every echo line that shows a low sample and a high sample after it - its
    counting loop needs no end of the pulse.  It never comes back if ECHO
    stays high (the wait for the previous pulse has no timeout) or stays low
    (nor has the wait for the new one). *)
Theorem revised_range_termination (M : Z) (s : board) :
  0 <= M <= 255 ->
  ((exists i j, (i < j)%nat
                /\ ECHO_line s (reads s + i)%nat = false
                /\ ECHO_line s (reads s + j)%nat = true) ->
   exists r, returns (fun fuel => Revised.sonar_range fuel M) s r)
  /\ ((forall k, ECHO_line s (reads s + k)%nat = true) ->
      hangs (fun fuel => Revised.sonar_range fuel M) s)
  /\ ((forall k, ECHO_line s (reads s + k)%nat = false) ->
      hangs (fun fuel => Revised.sonar_range fuel M) s).
Proof.
  intros HM. split; [ | split].
  - intros (i & j & Hij & Hi & Hj).
    destruct (while_ECHO_terminates true i s Hi)
      as (f1 & s1 & Hpre & Hline1 & Hreads1 & _).
    destruct (while_ECHO_terminates false (reads s + j - reads s1)
                (after_trigger (snd (delay_ms 1 s1))))
      as (f2 & s2 & Hwait & _).
    { cbn. rewrite Hline1, <- Hj. f_equal. lia. }
    destruct (revised_count_ends M 0 s2) as [r Hcount]; [lia | lia | ].
    exists r, (Nat.max f1 (Nat.max f2 256)).
    rewrite revised_range_unfold. unfold bind.
    rewrite Hpre by lia. rewrite Hwait by lia.
    apply (revised_count_more_fuel M 256); [lia | exact Hcount].
  - intros Hhigh fuel.
    rewrite revised_range_unfold. unfold bind.
    pose proof (while_ECHO_spins true fuel s Hhigh) as Hspin.
    destruct (while_ECHO true fuel s) as [[[] | ] s1];
      [discriminate | reflexivity].
  - intros Hlow fuel.
    rewrite revised_range_unfold. unfold bind.
    destruct (while_ECHO true fuel s) as [[[] | ] s1] eqn:Hpre;
      [ | reflexivity].
    assert (Hs1 : ECHO_line s1 = ECHO_line s /\ reads s1 = S (reads s)).
    { destruct fuel as [| fuel]; [discriminate | ].
      assert (H0 : ECHO_line s (reads s) = false).
      { rewrite <- (Hlow 0%nat). f_equal. lia. }
      cbn in Hpre. rewrite H0 in Hpre. cbn in Hpre.
      injection Hpre as <-. split; reflexivity. }
    destruct Hs1 as [Hline1 Hreads1].
    pose proof (while_ECHO_spins false fuel
                  (after_trigger (snd (delay_ms 1 s1)))) as Hspin.
    destruct (while_ECHO false fuel (after_trigger (snd (delay_ms 1 s1))))
      as [[[] | ] s2]; [ | reflexivity].
    enough (Some tt = None) by discriminate.
    apply Hspin. intros k. cbn. rewrite Hline1, Hreads1.
    rewrite <- (Hlow (S k)). f_equal. lia.
Qed.

Lemma revised_range_termination_witness :
  (exists r, returns (fun fuel => Revised.sonar_range fuel 90)
                     (power_on (hold false 2 (fun _ => true))) r)
  /\ hangs (fun fuel => Revised.sonar_range fuel 90) (power_on (fun _ => true))
  /\ hangs (fun fuel => Revised.sonar_range fuel 90) (power_on (fun _ => false)).
Proof.
  split; [ | split].
  - refine (proj1 (revised_range_termination 90
                     (power_on (hold false 2 (fun _ => true))) _) _); [lia | ].
    exists 0%nat, 2%nat. repeat split. lia.
  - refine (proj1 (proj2 (revised_range_termination 90
                            (power_on (fun _ => true)) _)) _); [lia | ].
    intros k. reflexivity.
  - refine (proj2 (proj2 (revised_range_termination 90
                            (power_on (fun _ => false)) _)) _); [lia | ].
    intros k. reflexivity.
Defined.

(** X6: on a stuck line - ECHO goes high and stays high - the revised routine
    comes back with 0 for every bound that fits a byte, where the starter
    routine hangs. *)
Theorem revised_range_stuck_echo (s : board) (busy idle : nat) (M : Z) :
  sees s (hold true busy (hold false (S idle) (fun _ => true))) ->
  0 <= M <= 255 ->
  returns (fun fuel => Revised.sonar_range fuel M) s 0.
Proof.
  intros Hsees HM.
  exists (S (Nat.max (Nat.max busy idle) 255)).
  destruct (revised_range_reaches s busy idle (fun _ => true) M
              (S (Nat.max (Nat.max busy idle) 255)) Hsees)
    as (s3 & -> & Hahead); [reflexivity | lia | ].
  apply (revised_count_beyond M
           (Z.to_nat ((if M =? 0 then 256 else M) - 1))).
  - destruct (Z.eqb_spec M 0); lia.
  - lia.
  - destruct (Z.eqb_spec M 0); lia.
  - intros k _. apply Hahead.
Qed.

Lemma revised_range_stuck_echo_witness :
  returns (fun fuel => Revised.sonar_range fuel 90)
          (power_on (hold true 1 (hold false 3 (fun _ => true)))) 0.
Proof.
  apply (revised_range_stuck_echo
           (power_on (hold true 1 (hold false 3 (fun _ => true)))) 1 2 90);
    [apply sees_power_on | lia].
Defined.

(** ** What the range routines leave alone *)

Section Frame.

Context {X : Type} (field : board -> X).
Hypothesis field_read : forall s, field (snd (read_ECHO s)) = field s.
Hypothesis field_emit : forall e s, field (emit e s) = field s.




End Frame.







(** ** The display and the main loop *)


(** X8: the display level never goes down when the distance goes up, and it
    stays within 0..4. *)
Theorem display_monotone (d d' : Z) :
  d <= d' ->
  0 <= map_to_display d <= map_to_display d' /\ map_to_display d' <= 4.
Proof.
  intros Hle. unfold map_to_display, Starter.led_pattern.
  rewrite !Z.gtb_ltb.
  repeat match goal with
         | |- context [?a <? ?b] => destruct (Z.ltb_spec a b)
         end;
    try lia; cbn; lia.
Qed.

Lemma display_monotone_witness :
  0 <= map_to_display 5 <= map_to_display 6 /\ map_to_display 6 <= 4.
Proof.
  apply (display_monotone 5 6). lia.
Defined.




(** A turn of the main loop resets if and only if SW1 is low, after the delay
    of 100 ms, and leaves SW1 as it is. *)
Lemma main_loop_body_run (fuel : nat) (s s' : board) (b : bool) :
  Starter.main_loop_body fuel s = (Some b, s') ->
  b = negb (SW1 s)
  /\ SW1 s' = SW1 s
  /\ exists rest,
      log s' = (if b then [EvReset] else []) ++ EvDelayMs 100 :: rest.
Proof.
  intros Hrun. unfold Starter.main_loop_body in Hrun.
  unfold bind at 1 in Hrun.
  pose proof (starter_range_SW1 fuel s) as Hsw.
  destruct (Starter.sonar_range fuel s) as [[r | ] s1]; [ | discriminate].
  cbn [snd] in Hsw. rewrite <- Hsw.
  destruct (SW1 s1) eqn:Hs1; cbn in Hrun; rewrite Hs1 in Hrun; cbn in Hrun;
    injection Hrun as <- <-; cbn;
    (split; [reflexivity | split; [reflexivity | eexists; reflexivity]]).
Qed.

(** X12: the [while(1)] loop of [main] has no way out but [RESET()].  With
    SW1 high (not pressed) it never ends, however many measurements come
    back; with SW1 low it ends after its first measurement, and the last
    things it does are the delay of 100 ms and the reset. *)
Theorem main_leaves_by_reset_only (s : board) :
  (SW1 s = true -> forall turns fuel, fst (main_loop turns fuel s) = None)
  /\ (SW1 s = false ->
      forall turns fuel r,
        fst (Starter.sonar_range fuel s) = Some r ->
        fst (main_loop (S turns) fuel s) = Some tt
        /\ exists rest,
            log (snd (main_loop (S turns) fuel s))
            = EvReset :: EvDelayMs 100 :: rest).
Proof.
  split.
  - intros Hsw turns fuel.
    assert (Hloop : forall n t, SW1 t = true -> fst (main_loop n fuel t) = None).
    { induction n as [| n IH]; intros t Ht; [reflexivity | ].
      cbn [main_loop]. unfold bind at 1.
      destruct (Starter.main_loop_body fuel t) as [[b | ] t'] eqn:Hbody;
        [ | reflexivity].
      destruct (main_loop_body_run fuel t t' b Hbody) as (Hb & Hkeep & _).
      rewrite Ht in Hb. cbn in Hb. subst b.
      apply IH. congruence. }
    apply (Hloop turns s). exact Hsw.
  - intros Hsw turns fuel r Hrun.
    assert (Hstep : main_loop (S turns) fuel s
                    = match Starter.main_loop_body fuel s with
                      | (Some reset, s') =>
                          (if reset then ret tt else main_loop turns fuel) s'
                      | (None, s') => (None, s')
                      end) by reflexivity.
    rewrite Hstep. clear Hstep.
    destruct (Starter.main_loop_body fuel s) as [[b | ] s'] eqn:Hbody.
    + destruct (main_loop_body_run fuel s s' b Hbody) as (Hb & _ & rest & Hlog).
      rewrite Hsw in Hb. cbn in Hb. subst b. cbn.
      split; [reflexivity | ]. exists rest. exact Hlog.
    + exfalso. unfold Starter.main_loop_body, bind at 1 in Hbody.
      destruct (Starter.sonar_range fuel s) as [[r' | ] s1];
        [ | discriminate].
      cbn in Hbody. destruct (negb (SW1 s1)); discriminate.
Qed.

Lemma main_leaves_by_reset_only_witness :
  (forall turns fuel,
     fst (main_loop turns fuel (power_on (sim_echo 3 15))) = None)
  /\ fst (main_loop 1 20 (mkBoard (sim_echo 3 15) 0 0 false 0 0 [])) = Some tt.
Proof.
  split.
  - apply (main_leaves_by_reset_only (power_on (sim_echo 3 15))).
    reflexivity.
  - refine (proj1 (proj2 (main_leaves_by_reset_only
                            (mkBoard (sim_echo 3 15) 0 0 false 0 0 []))
                     eq_refl 0%nat 20%nat 15 _)).
    vm_compute. reflexivity.
Defined.

(** ** The polling call of the revised routine *)

(** Whatever the fuel, a call of the revised routine only adds to the log. *)
Lemma revised_range_extends (fuel : nat) (maxRange : Z) (s : board) :
  exists new, log (snd (Revised.sonar_range fuel maxRange s)) = new ++ log s.
Proof.
  rewrite revised_range_unfold. unfold bind.
  destruct (while_ECHO_log true fuel s) as [n Hpre].
  destruct (while_ECHO true fuel s) as [[[] | ] s1]; cbn [fst snd] in Hpre |- *;
    [ | eexists; exact Hpre].
  destruct (while_ECHO_log false fuel (after_trigger (snd (delay_ms 1 s1))))
    as [m Hwait].
  destruct (while_ECHO false fuel (after_trigger (snd (delay_ms 1 s1))))
    as [[[] | ] s2]; cbn [fst snd] in Hwait |- *.
  - destruct (revised_count_log maxRange fuel 0 s2) as (new & Hnew & _).
    exists (new ++ [EvEcho true] ++ repeat (EvEcho false) m
            ++ [EvTrig false; EvDelayUs 20; EvTrig true; EvDelayMs 1;
                EvEcho false]
            ++ repeat (EvEcho true) n).
    rewrite Hnew, Hwait.
    cbn [after_trigger set_TRIG delay_us delay_ms emit snd log].
    rewrite Hpre, <- !app_assoc. reflexivity.
  - exists (repeat (EvEcho false) m
            ++ [EvTrig false; EvDelayUs 20; EvTrig true; EvDelayMs 1;
                EvEcho false]
            ++ repeat (EvEcho true) n).
    rewrite Hwait.
    cbn [after_trigger set_TRIG delay_us delay_ms emit snd log].
    rewrite Hpre, <- !app_assoc. reflexivity.
Qed.

(** The polling call when ECHO reads low: the events of the range routine,
    after the read of [sonar_ready]. *)
Lemma poll_range_ready (fuel : nat) (maxRange : Z) (s : board) :
  ECHO_line s (reads s) = false ->
  emitted (Revised.poll_range fuel maxRange) s
  = EvEcho false
      :: emitted (Revised.sonar_range fuel maxRange) (snd (read_ECHO s)).
Proof.
  intros Hlow.
  destruct (revised_range_extends fuel maxRange (snd (read_ECHO s)))
    as [new Hnew].
  rewrite (emitted_of_log _ _ new Hnew).
  rewrite (emitted_of_log _ _ (new ++ [EvEcho false])).
  - rewrite rev_app_distr. reflexivity.
  - unfold Revised.poll_range, Revised.sonar_ready, bind.
    cbn [read_ECHO]. rewrite Hlow. cbn [ret].
    cbn [read_ECHO snd] in Hnew. rewrite Hlow in Hnew.
    destruct (Revised.sonar_range fuel maxRange _) as [[r | ] s1];
      cbn [snd set_distance log] in Hnew |- *;
      rewrite Hnew, <- app_assoc; reflexivity.
Qed.

(** X10: the polling call [if(sonar_ready()) distance = sonar_range(max);]
    does not block on a pulse in progress.  If ECHO reads high at the call
    it is back at once, whatever the fuel, with no trigger given and
    [distance] and LATC as they were; and whenever it gives a trigger, its
    first read had seen ECHO low, and so had the last read before the settle
    delay. *)
Theorem poll_range_guard (fuel : nat) (maxRange : Z) (s : board) :
  (ECHO_line s (reads s) = true ->
   fst (Revised.poll_range fuel maxRange s) = Some tt
   /\ emitted (Revised.poll_range fuel maxRange) s = [EvEcho true]
   /\ distance (snd (Revised.poll_range fuel maxRange s)) = distance s
   /\ LATC (snd (Revised.poll_range fuel maxRange s)) = LATC s)
  /\ (forall pre post,
        emitted (Revised.poll_range fuel maxRange) s
        = pre ++ EvTrig true :: post ->
        exists n,
          pre = EvEcho false
                  :: repeat (EvEcho true) n ++ [EvEcho false; EvDelayMs 1]).
Proof.
  assert (Hbusy : ECHO_line s (reads s) = true ->
                  Revised.poll_range fuel maxRange s
                  = (Some tt, snd (read_ECHO s))).
  { intros Hhigh. unfold Revised.poll_range, Revised.sonar_ready, bind.
    cbn [read_ECHO snd]. rewrite Hhigh. reflexivity. }
  assert (Hquiet : ECHO_line s (reads s) = true ->
                   emitted (Revised.poll_range fuel maxRange) s
                   = [EvEcho true]).
  { intros Hhigh. apply adds_emitted. rewrite (Hbusy Hhigh).
    unfold adds. cbn. rewrite Hhigh. reflexivity. }
  split.
  - intros Hhigh. rewrite (Hbusy Hhigh).
    repeat split. exact (Hquiet Hhigh).
  - intros pre post Hsplit.
    destruct (ECHO_line s (reads s)) eqn:H0.
    + exfalso. rewrite (Hquiet eq_refl) in Hsplit.
      destruct pre as [| e [| e' pre]]; discriminate.
    + rewrite (poll_range_ready fuel maxRange s H0) in Hsplit.
      clear Hbusy Hquiet.
      generalize dependent (snd (read_ECHO s)). intros s1 Hsplit.
      destruct pre as [| e pre]; [discriminate | ].
      cbn [app] in Hsplit. injection Hsplit as <- Hsplit.
      destruct (revised_range_emitted fuel maxRange s1)
        as [n [Hspin | (rest & Hrun & Hrest)]].
      * exfalso. rewrite Hspin in Hsplit.
        assert (Hin : In (EvTrig true) (repeat (EvEcho true) n)).
        { rewrite Hsplit. apply in_or_app. right. left. reflexivity. }
        apply repeat_spec in Hin. discriminate.
      * exists n. f_equal. rewrite Hrun in Hsplit.
        apply (split_at_trigger _ rest pre post); [ | assumption | exact Hsplit].
        apply Forall_app. split; [ | repeat constructor].
        apply Forall_forall. intros e He.
        apply repeat_spec in He. subst e. reflexivity.
Qed.

Lemma poll_range_guard_witness :
  (fst (Revised.poll_range 0 90 (power_on (fun _ => true))) = Some tt
   /\ emitted (Revised.poll_range 0 90) (power_on (fun _ => true))
      = [EvEcho true])
  /\ exists n,
      [EvEcho false; EvEcho false; EvDelayMs 1]
      = EvEcho false :: repeat (EvEcho true) n ++ [EvEcho false; EvDelayMs 1].
Proof.
  split.
  - destruct (proj1 (poll_range_guard 0 90 (power_on (fun _ => true))) eq_refl)
      as (Hret & Hquiet & _).
    split; assumption.
  - apply (proj2 (poll_range_guard 20 3 (power_on (sim_echo 3 5)))
             [EvEcho false; EvEcho false; EvDelayMs 1]
             [EvDelayUs 20; EvTrig false; EvEcho false; EvEcho true;
              EvDelayUs 58; EvEcho true; EvDelayUs 58; EvEcho true;
              EvDelayUs 58]).
    vm_compute. reflexivity.
Defined.

(** ** The timer formulas against the counting loop *)

Lemma u16_small (z : Z) : 0 <= z < 65536 -> u16 z = z.
Proof. intros Hz. unfold u16. apply Z.mod_small. lia. Qed.

(** X11: for a pulse of [t] microseconds, 1 <= t < 65536, the two timer
    formulas of [main] give the same distance, [(t / 58) mod 256].  Below
    58 * 255 microseconds the counting loop agrees with them to within one:
    it rounds up where the division rounds down.  From 58 * 256 microseconds
    on the loop stays at 255 while the timer distance has gone round the 8
    bits of [distance]. *)
Theorem timer_formulas_and_loop (s : board) (idle : nat) (t : Z) :
  sees s (hold false idle (pulse_us t)) ->
  1 <= t < 65536 ->
  timer_distance_29_2 t = timer_distance_58 t
  /\ timer_distance_58 t = (t / 58) mod 256
  /\ exists r,
      returns Starter.sonar_range s r
      /\ (t < 14790 -> timer_distance_58 t <= r <= timer_distance_58 t + 1)
      /\ (14848 <= t -> r = 255 /\ timer_distance_58 t + 256 <= t / 58).
Proof.
  intros Hsees Ht.
  assert (Hfloor : 58 * (t / 58) <= t < 58 * (t / 58) + 58).
  { pose proof (Z.mul_div_le t 58). pose proof (Z.mul_succ_div_gt t 58). lia. }
  assert (Hceil : 58 * ((t + 57) / 58) <= t + 57 < 58 * ((t + 57) / 58) + 58).
  { pose proof (Z.mul_div_le (t + 57) 58).
    pose proof (Z.mul_succ_div_gt (t + 57) 58). lia. }
  unfold timer_distance_29_2, timer_distance_58.
  rewrite u16_small by lia.
  split; [ | split].
  - rewrite Z.div_div by lia. reflexivity.
  - reflexivity.
  - exists (Z.min ((t + 57) / 58) 255). split; [ | split].
    + exists (S (Nat.max idle (Z.to_nat ((t + 57) / 58 - 1)))).
      apply (starter_range_pulse_us s idle t); [assumption | lia | lia].
    + intros Hshort. rewrite u8_small by lia. lia.
    + intros Hlong. split; [lia | ].
      unfold u8. pose proof (Z.mod_pos_bound (t / 58) 256).
      pose proof (Z.div_mod (t / 58) 256).
      assert (1 <= t / 58 / 256).
      { apply Z.div_le_lower_bound; lia. }
      lia.
Qed.

Lemma timer_formulas_and_loop_witness :
  timer_distance_29_2 1438 = timer_distance_58 1438
  /\ timer_distance_58 1438 = (1438 / 58) mod 256
  /\ exists r,
      returns Starter.sonar_range (power_on (hold false 3 (pulse_us 1438))) r
      /\ (1438 < 14790 ->
          timer_distance_58 1438 <= r <= timer_distance_58 1438 + 1)
      /\ (14848 <= 1438 ->
          r = 255 /\ timer_distance_58 1438 + 256 <= 1438 / 58).
Proof.
  apply (timer_formulas_and_loop (power_on (hold false 3 (pulse_us 1438)))
           3 1438); [apply sees_power_on | lia].
Defined.
